(** * Node predicates of PyBEL ([pybel/struct/filters/node_predicates.py])

    A shallow embedding of the node predicates, of the decorator
    [node_predicate] that lets a predicate on a node data dictionary be
    called on a graph and a node tuple as well, of the scan over the
    edges of a node for a modifier, and of the builder of exclusion
    filters.

    Python dictionaries with string keys are finite maps; a Python
    exception is a value of [exn], and a function that can raise returns
    a [result]. *)

From Stdlib Require Import Ascii String.
From stdpp Require Import gmap strings list fin_maps.
From stdpp Require Import pretty.

Local Open Scope string_scope.
Local Open Scope list_scope.
Local Set Warnings "-register-all".

(** ** Exceptions and results *)

(** The exceptions that the module can raise or let through.
    [NodeNotFound] is the error of the graph for a node tuple that it
    does not hold. *)
Inductive exn : Type :=
  | ValueError
  | IndexError
  | KeyError
  | TypeError
  | NodeNotFound.

Inductive result (A : Type) : Type :=
  | Ok (a : A)
  | Raise (e : exn).

Arguments Ok {A} a.
Arguments Raise {A} e.

Definition rbind {A B : Type} (r : result A) (k : A → result B) : result B :=
  match r with
  | Ok a => k a
  | Raise e => Raise e
  end.

Notation "x <~ r ;; k" := (rbind r (fun x => k))
  (at level 100, r at next level, right associativity).

(** ** Python values held in the data dictionaries *)

Inductive value : Type :=
  | VNone
  | VStr (s : string)
  | VList (l : list value)
  | VDict (d : gmap string value).

(** A data dictionary: the data of a node, of an edge, or a record
    nested in one of them. *)
Abbreviation dict := (gmap string value).

(** [v == s], for a string [s]: only the string [s] itself is equal to it. *)
Definition py_eq_str (v : value) (s : string) : bool :=
  match v with
  | VStr s' => bool_decide (s' = s)
  | _ => false
  end.

(** [k in d], for a dictionary [d]. *)
Definition dict_contains (k : string) (d : dict) : bool :=
  bool_decide (is_Some (d !! k)).

(** [d[k]], for a dictionary [d]: [KeyError] on a missing key. *)
Definition dict_getitem (d : dict) (k : string) : result value :=
  match d !! k with
  | Some v => Ok v
  | None => Raise KeyError
  end.

(** [k in v], for any value [v] and a string [k]: a key of a dictionary,
    an element of a list, a substring of a string; [None] is not
    iterable. *)
Definition contains (k : string) (v : value) : result bool :=
  match v with
  | VDict d => Ok (dict_contains k d)
  | VList l => Ok (existsb (fun x => py_eq_str x k) l)
  | VStr s => Ok (bool_decide (is_Some (String.index 0 k s)))
  | VNone => Raise TypeError
  end.

(** [v[k]], for any value [v] and a string [k]: strings and lists take
    integer indices only, [None] is not subscriptable. *)
Definition getitem (v : value) (k : string) : result value :=
  match v with
  | VDict d => dict_getitem d k
  | _ => Raise TypeError
  end.

(** The elements that [for x in v] runs over. A dictionary yields its
    keys and a string its characters. *)
Definition iter (v : value) : result (list value) :=
  match v with
  | VList l => Ok l
  | VDict d => Ok (VStr <$> (map_to_list d).*1)
  | VStr s => Ok ((fun c => VStr (String c EmptyString)) <$> list_ascii_of_string s)
  | VNone => Raise TypeError
  end.

(** [any(f(x) for x in l)]: stops at the first true element, and at the
    first element on which [f] raises. *)
Fixpoint any {A : Type} (f : A → result bool) (l : list A) : result bool :=
  match l with
  | [] => Ok false
  | x :: l' => b <~ f x ;; if b then Ok true else any f l'
  end.

(** [v in s], for a set [s] of strings: lists and dictionaries cannot be
    hashed. *)
Definition in_str_set (v : value) (s : gset string) : result bool :=
  match v with
  | VStr x => Ok (bool_decide (x ∈ s))
  | VNone => Ok false
  | VList _ | VDict _ => Raise TypeError
  end.

(** ** Constants *)

(** Modelled from the spec: the keys and tokens of [pybel/constants.py],
    which is not among the sources. The predicates only compare them, so
    that all that matters is that they are distinct strings; they are
    the keys [function], [variants], [kind], [modifier], [subject],
    [object] and the tokens that the spec names. *)
Module Constants.
Definition FUNCTION := "function".
Definition VARIANTS := "variants".
Definition KIND := "kind".
Definition RELATION := "relation".
Definition SUBJECT := "subject".
Definition OBJECT := "object".
Definition MODIFIER := "modifier".
Definition EFFECT := "effect".
Definition FROM_LOC := "fromLoc".
Definition TO_LOC := "toLoc".
Definition LOCATION := "location".
Definition NAMESPACE := "namespace".
Definition NAME := "name".

Definition ABUNDANCE := "Abundance".
Definition GENE := "Gene".
Definition PROTEIN := "Protein".
Definition PATHOLOGY := "Pathology".

Definition PMOD := "pmod".
Definition GMOD := "gmod".
Definition HGVS := "hgvs".
Definition FRAGMENT := "frag".

Definition ACTIVITY := "Activity".
Definition DEGRADATION := "Degradation".
Definition TRANSLOCATION := "Translocation".

Definition INCREASES := "increases".
Definition DIRECTLY_INCREASES := "directlyIncreases".
Definition DECREASES := "decreases".
Definition DIRECTLY_DECREASES := "directlyDecreases".

Definition CAUSAL_RELATIONS : gset string :=
  {[ INCREASES; DIRECTLY_INCREASES; DECREASES; DIRECTLY_DECREASES ]}.
End Constants.
Import Constants.

(** ** Predicates on the data dictionary of a node *)

(** The bodies of the decorated functions, on the data dictionary. *)

Definition is_abundance_body (data : dict) : result bool :=
  v <~ dict_getitem data FUNCTION ;; Ok (py_eq_str v ABUNDANCE).

Definition is_gene_body (data : dict) : result bool :=
  v <~ dict_getitem data FUNCTION ;; Ok (py_eq_str v GENE).

Definition is_protein_body (data : dict) : result bool :=
  v <~ dict_getitem data FUNCTION ;; Ok (py_eq_str v PROTEIN).

Definition is_pathology_body (data : dict) : result bool :=
  v <~ dict_getitem data FUNCTION ;; Ok (py_eq_str v PATHOLOGY).

Definition not_pathology_body (data : dict) : result bool :=
  v <~ dict_getitem data FUNCTION ;; Ok (negb (py_eq_str v PATHOLOGY)).

Definition has_variant_body (data : dict) : result bool :=
  Ok (dict_contains VARIANTS data).

(** [VARIANTS in data and any(variant_dict[KIND] == variant
                              for variant_dict in data[VARIANTS])] *)
Definition _node_has_variant (data : dict) (variant : string) : result bool :=
  if dict_contains VARIANTS data then
    vs <~ dict_getitem data VARIANTS ;;
    l <~ iter vs ;;
    any (fun variant_dict =>
           k <~ getitem variant_dict KIND ;; Ok (py_eq_str k variant)) l
  else Ok false.

Definition has_protein_modification_body (data : dict) : result bool :=
  _node_has_variant data PMOD.

Definition has_gene_modification_body (data : dict) : result bool :=
  _node_has_variant data GMOD.

Definition has_hgvs_body (data : dict) : result bool :=
  _node_has_variant data HGVS.

Definition has_fragment_body (data : dict) : result bool :=
  _node_has_variant data FRAGMENT.

(** ** The graph *)

Section Graph.

(** Node tuples: the predicates only hash and compare them. *)
Context {NodeRef : Type} `{Countable NodeRef}.

(** An edge [(u, v, d)]: source, target and the data dictionary. *)
Definition edge : Type := NodeRef * NodeRef * dict.

Definition edge_source (e : edge) : NodeRef := e.1.1.
Definition edge_target (e : edge) : NodeRef := e.1.2.
Definition edge_data (e : edge) : dict := e.2.

(** Modelled from the spec: [BELGraph] of [pybel/struct/graph.py], which
    is not among the sources. The graph holds the data dictionary of each
    of its nodes ([graph.node]) and a sequence of edges, several of which
    may join the same two nodes. *)
Record BELGraph : Type := {
  node : gmap NodeRef dict;
  edges : list edge
}.

(** Modelled from the spec: [graph.in_edges_iter(n, data=True)], the
    edges that arrive at [n], in the order of the graph; it fails with
    [NodeNotFound] for a node tuple that the graph does not hold. *)
Definition in_edges_iter (graph : BELGraph) (n : NodeRef) : result (list edge) :=
  match node graph !! n with
  | Some _ => Ok (filter (fun e => edge_target e = n) (edges graph))
  | None => Raise NodeNotFound
  end.

(** Modelled from the spec: [graph.out_edges_iter(n, data=True)], the
    edges that leave [n]; it fails like [in_edges_iter]. *)
Definition out_edges_iter (graph : BELGraph) (n : NodeRef) : result (list edge) :=
  match node graph !! n with
  | Some _ => Ok (filter (fun e => edge_source e = n) (edges graph))
  | None => Raise NodeNotFound
  end.

(** ** Arguments of a call *)

(** What a caller can pass at a position of a call: a graph, a node
    tuple, or a plain value (a data dictionary is [PyValue (VDict d)]). *)
Inductive pyobj : Type :=
  | PyGraph (graph : BELGraph)
  | PyNode (n : NodeRef)
  | PyValue (v : value).

(** Modelled from the spec: [graph.node[k]], the look-up of the data of
    a node; a dictionary or a list cannot be a key, and any other object
    that is not a node of the graph is not found. *)
Definition node_getitem (graph : BELGraph) (k : pyobj) : result dict :=
  match k with
  | PyNode n =>
      match node graph !! n with
      | Some d => Ok d
      | None => Raise NodeNotFound
      end
  | PyValue (VDict _) | PyValue (VList _) => Raise TypeError
  | PyValue _ | PyGraph _ => Raise NodeNotFound
  end.

(** ** The decorator *)

(** A Python function whose first parameter is the data dictionary,
    applied to that dictionary and to the further positional arguments
    of the call. *)
Definition pyfun : Type := dict → list pyobj → result bool.

(** A function of the single parameter [data]: a call with further
    arguments is a [TypeError]. *)
Definition unary (body : dict → result bool) : pyfun :=
  fun data extra =>
    match extra with
    | [] => body data
    | _ :: _ => Raise TypeError
    end.

(** The function [wrapped] that [node_predicate(fn)] returns, applied to
    its arguments [args]. In the graph branch
    [args[1]] is evaluated before the call of [fn], and is an
    [IndexError] when the graph is the only argument. *)
Definition node_predicate (fn : pyfun) (args : list pyobj) : result bool :=
  match args with
  | [] => Raise ValueError
  | x :: rest =>
      match x with
      | PyGraph graph =>
          match rest with
          | [] => Raise IndexError
          | k :: extra => data <~ node_getitem graph k ;; fn data extra
          end
      | PyValue (VDict data) => fn data rest
      | _ => Raise ValueError
      end
  end.

Definition keep_node_permissive (graph : BELGraph) (n : NodeRef) : bool := true.

Definition is_abundance := node_predicate (unary is_abundance_body).
Definition is_gene := node_predicate (unary is_gene_body).
Definition is_protein := node_predicate (unary is_protein_body).
Definition is_pathology := node_predicate (unary is_pathology_body).
Definition not_pathology := node_predicate (unary not_pathology_body).
Definition has_variant := node_predicate (unary has_variant_body).
Definition has_protein_modification :=
  node_predicate (unary has_protein_modification_body).
Definition has_gene_modification :=
  node_predicate (unary has_gene_modification_body).
Definition has_hgvs := node_predicate (unary has_hgvs_body).
Definition has_fragment := node_predicate (unary has_fragment_body).

(** ** The scan of the edges of a node *)

(** The test of one edge in [_node_has_modifier], for [side] one of
    [OBJECT] and [SUBJECT]:
    [side in d and MODIFIER in d[side] and d[side][MODIFIER] == modifier]. *)
Definition edge_has_modifier (side modifier : string) (d : dict) : result bool :=
  if dict_contains side d then
    q <~ dict_getitem d side ;;
    c <~ contains MODIFIER q ;;
    if c then m <~ getitem q MODIFIER ;; Ok (py_eq_str m modifier)
    else Ok false
  else Ok false.

(** [for _, _, d in es: if test(d): return True], followed by the rest
    of the function when no edge passes the test. *)
Fixpoint for_return_true (test : dict → result bool) (es : list edge)
    (rest : result bool) : result bool :=
  match es with
  | [] => rest
  | e :: es' =>
      b <~ test (edge_data e) ;;
      if b then Ok true else for_return_true test es' rest
  end.

Definition _node_has_modifier (graph : BELGraph) (n : NodeRef)
    (modifier : string) : result bool :=
  ins <~ in_edges_iter graph n ;;
  for_return_true (edge_has_modifier OBJECT modifier) ins
    (outs <~ out_edges_iter graph n ;;
     for_return_true (edge_has_modifier SUBJECT modifier) outs
       (Ok false)).

Definition has_activity (graph : BELGraph) (n : NodeRef) : result bool :=
  _node_has_modifier graph n ACTIVITY.

Definition is_degraded (graph : BELGraph) (n : NodeRef) : result bool :=
  _node_has_modifier graph n DEGRADATION.

Definition is_translocated (graph : BELGraph) (n : NodeRef) : result bool :=
  _node_has_modifier graph n TRANSLOCATION.

(** [data[RELATION] in CAUSAL_RELATIONS] *)
Definition edge_is_causal (e : edge) : result bool :=
  r <~ dict_getitem (edge_data e) RELATION ;; in_str_set r CAUSAL_RELATIONS.

Definition has_causal_in_edges (graph : BELGraph) (n : NodeRef) : result bool :=
  ins <~ in_edges_iter graph n ;; any edge_is_causal ins.

Definition has_causal_out_edges (graph : BELGraph) (n : NodeRef) : result bool :=
  outs <~ out_edges_iter graph n ;; any edge_is_causal outs.

(** ** The builder of exclusion filters *)

(** An element of the argument of the builder: a data dictionary or a
    node tuple. *)
Inductive node_arg : Type :=
  | ArgData (data : dict)
  | ArgTuple (n : NodeRef).

Section Exclusion.

(** [node_to_tuple] of [pybel/tokens.py], which is not among the sources:
    the node tuple of a data dictionary. *)
Variable node_to_tuple : dict → NodeRef.

(** [node_to_tuple(node) if isinstance(node, dict) else node] *)
Definition canonical (a : node_arg) : NodeRef :=
  match a with
  | ArgData data => node_to_tuple data
  | ArgTuple n => n
  end.

(** The set comprehension of the builder. *)
Definition exclusion_set (nodes : list node_arg) : gset NodeRef :=
  list_to_set (canonical <$> nodes).

Definition node_exclusion_filter_body (nodes : gset NodeRef) (data : dict)
    : result bool :=
  Ok (bool_decide (node_to_tuple data ∉ nodes)).

Definition node_exclusion_filter_builder (nodes : list node_arg)
    : list pyobj → result bool :=
  let nodes := exclusion_set nodes in
  node_predicate (unary (node_exclusion_filter_body nodes)).

End Exclusion.

End Graph.

Arguments BELGraph NodeRef {_ _}.
Arguments pyobj NodeRef {_ _}.
Arguments pyfun NodeRef {_ _}.
Arguments edge NodeRef : clear implicits.
Arguments node_arg NodeRef : clear implicits.

(** ** The data model *)

(** The shape that the graph gives its data, and the facts about an edge
    that the properties below speak of. *)

Section Shapes.

Context {NodeRef : Type} `{Countable NodeRef}.

Definition is_dict (v : value) : bool :=
  match v with
  | VDict _ => true
  | _ => false
  end.

Definition is_graph (x : pyobj NodeRef) : bool :=
  match x with
  | PyGraph _ => true
  | _ => false
  end.

Definition is_data (x : pyobj NodeRef) : bool :=
  match x with
  | PyValue v => is_dict v
  | _ => false
  end.

(** The record under the key [side] of the data of an edge, when there
    is one, is a dictionary. *)
Definition qualifier_ok (side : string) (d : dict) : bool :=
  match d !! side with
  | Some v => is_dict v
  | None => true
  end.

(** The data of an edge holds a relation, a string. *)
Definition relation_ok (d : dict) : bool :=
  match d !! RELATION with
  | Some (VStr _) => true
  | _ => false
  end.

Definition qualifiers_ok (graph : BELGraph NodeRef) : bool :=
  forallb (fun e => qualifier_ok SUBJECT (edge_data e)
                    && qualifier_ok OBJECT (edge_data e)) (edges graph).

Definition relations_ok (graph : BELGraph NodeRef) : bool :=
  forallb (fun e => relation_ok (edge_data e)) (edges graph).

(** A variant record: a dictionary with a kind. *)
Definition variant_ok (v : value) : bool :=
  match v with
  | VDict r => dict_contains KIND r
  | _ => false
  end.

(** The variants of a node, when it has the key, are a list of variant
    records. *)
Definition variants_ok (data : dict) : bool :=
  match data !! VARIANTS with
  | Some (VList l) => forallb variant_ok l
  | Some _ => false
  | None => true
  end.

(** The node has a variant record of the kind [kind]. *)
Definition has_variant_of_kind (data : dict) (kind : string) : Prop :=
  ∃ l r, data !! VARIANTS = Some (VList l) ∧ VDict r ∈ l
         ∧ r !! KIND = Some (VStr kind).

Definition in_edge (graph : BELGraph NodeRef) (n : NodeRef) (e : edge NodeRef) : Prop :=
  e ∈ edges graph ∧ edge_target e = n.

Definition out_edge (graph : BELGraph NodeRef) (n : NodeRef) (e : edge NodeRef) : Prop :=
  e ∈ edges graph ∧ edge_source e = n.

(** The data [d] of an edge has, under [side], a record whose modifier
    is [modifier]. *)
Definition carries (side modifier : string) (d : dict) : Prop :=
  ∃ q, d !! side = Some (VDict q) ∧ q !! MODIFIER = Some (VStr modifier).

(** What [_node_has_modifier] looks for: an edge that arrives at the
    node with the modifier on its object, or an edge that leaves the
    node with the modifier on its subject. *)
Definition has_modifier_spec (graph : BELGraph NodeRef) (n : NodeRef)
    (modifier : string) : Prop :=
  (∃ e, in_edge graph n e ∧ carries OBJECT modifier (edge_data e))
  ∨ (∃ e, out_edge graph n e ∧ carries SUBJECT modifier (edge_data e)).

(** The data [d] of an edge has, under [side], a record without the key
    [MODIFIER]. *)
Definition lacks_modifier (side : string) (d : dict) : Prop :=
  ∃ q, d !! side = Some (VDict q) ∧ q !! MODIFIER = None.

(** The relation of the edge is one of the causal ones. *)
Definition causal (d : dict) : Prop :=
  ∃ r, d !! RELATION = Some (VStr r) ∧ r ∈ CAUSAL_RELATIONS.

(** The four predicates on the variants of a node, each with the kind it
    looks for. *)
Definition variant_predicates : list ((list (pyobj NodeRef) → result bool) * string) :=
  [ (has_protein_modification, PMOD);
    (has_gene_modification, GMOD);
    (has_hgvs, HGVS);
    (has_fragment, FRAGMENT) ].

(** The predicates that are read off the edges of a node. *)
Definition edge_predicates : list (BELGraph NodeRef → NodeRef → result bool) :=
  [ has_activity; is_degraded; is_translocated;
    has_causal_in_edges; has_causal_out_edges ].

End Shapes.

(** Modelled from the spec: [translocation] and [secretion] of
    [pybel/dsl], which is not among the sources. A translocation is a
    record with the modifier [TRANSLOCATION] and the two locations; a
    secretion is the translocation out of the cell. *)
Definition translocation (from_loc to_loc : value) : value :=
  VDict (<[MODIFIER := VStr TRANSLOCATION]>
           {[ EFFECT := VDict (<[FROM_LOC := from_loc]> {[ TO_LOC := to_loc ]}) ]}).

Definition secretion : value :=
  translocation (VStr "intracellular") (VStr "extracellular space").

(** ** The graphs of the tests *)

(** The nodes and graphs of [tests/test_struct_node_predicates.py], with
    node tuples [(function, namespace, name)] written as lists. *)
Module Examples.

Abbreviation node_tuple := (list string).

(** The data dictionary that [pybel.dsl] builds for a node without
    variants. *)
Definition simple_node (function namespace name : string) : dict :=
  <[FUNCTION := VStr function]>
    (<[NAMESPACE := VStr namespace]> {[ NAME := VStr name ]}).

Definition str_at (data : dict) (k : string) : string :=
  match data !! k with
  | Some (VStr s) => s
  | _ => ""
  end.

(** The node tuple of a node without variants. *)
Definition simple_node_to_tuple (data : dict) : node_tuple :=
  [str_at data FUNCTION; str_at data NAMESPACE; str_at data NAME].

Definition variant (kind : string) : value := VDict {[ KIND := VStr kind ]}.

(** [p1], [p2] and [g1]: a protein, the protein with an HGVS variant and
    a protein modification, and a gene with a gene modification. *)
Definition p1 : dict := simple_node PROTEIN "HGNC" "BRAF".

Definition p2 : dict :=
  <[VARIANTS := VList [variant HGVS; variant PMOD]]> p1.

Definition g1 : dict :=
  <[VARIANTS := VList [variant GMOD]]> (simple_node GENE "HGNC" "BRAF").

(** The graph with the nodes [u] and [v] and one edge from [u] to [v]. *)
Definition one_edge (u v edge_d : dict) : BELGraph node_tuple :=
  {| node := <[simple_node_to_tuple u := u]> {[ simple_node_to_tuple v := v ]};
     edges := [(simple_node_to_tuple u, simple_node_to_tuple v, edge_d)] |}.

Definition modifier_record (modifier : string) : value :=
  VDict {[ MODIFIER := VStr modifier ]}.

(** [test_p1_active]:
    [cat(p(HGNC:HSD11B1)) increases deg(a(CHEBI:cortisol))] *)
Definition hsd11b1 : dict := simple_node PROTEIN "HGNC" "HSD11B1".
Definition cortisol : dict := simple_node ABUNDANCE "CHEBI" "cortisol".

Definition active_edge : dict :=
  <[RELATION := VStr INCREASES]>
    (<[SUBJECT := modifier_record ACTIVITY]>
       {[ OBJECT := modifier_record DEGRADATION ]}).

Definition p1_active : BELGraph node_tuple := one_edge hsd11b1 cortisol active_edge.

(** [test_object_has_secretion]: [p(MGI:Il4) increases sec(p(MGI:Cxcl1))] *)
Definition il4 : dict := simple_node PROTEIN "MGI" "Il4".
Definition cxcl1 : dict := simple_node PROTEIN "MGI" "Cxcl1".

Definition secretion_edge : dict :=
  <[RELATION := VStr INCREASES]> {[ OBJECT := secretion ]}.

Definition object_has_secretion : BELGraph node_tuple :=
  one_edge il4 cxcl1 secretion_edge.

(** An edge whose object only has a location: a record without the key
    [MODIFIER]. *)
Definition located_edge : dict :=
  <[RELATION := VStr INCREASES]>
    {[ OBJECT := VDict {[ LOCATION := VStr "cytoplasm" ]} ]}.

End Examples.

(** ** Lists of predicates and graphs by their parts *)

Section Parts.

Context {NodeRef : Type} `{Countable NodeRef}.

(** The five predicates on the function of a node. *)
Definition function_predicates : list (list (pyobj NodeRef) → result bool) :=
  [is_abundance; is_gene; is_protein; is_pathology; not_pathology].

(** The two predicates on causal edges, each with the edges it reads. *)
Definition causal_predicates
    : list ((BELGraph NodeRef → NodeRef → result (list (edge NodeRef)))
            * (BELGraph NodeRef → NodeRef → result bool)) :=
  [ (in_edges_iter, has_causal_in_edges);
    (out_edges_iter, has_causal_out_edges) ].

(** The graph with the nodes [nodes] and the edges [es]. *)
Definition graph_of (nodes : gmap NodeRef dict) (es : list (edge NodeRef))
    : BELGraph NodeRef :=
  {| node := nodes; edges := es |}.

(** The edges [es] with the data of each changed by [f]. *)
Definition with_edge_data (f : dict → dict) (es : list (edge NodeRef))
    : list (edge NodeRef) :=
  (fun e => (edge_source e, edge_target e, f (edge_data e))) <$> es.

End Parts.

(** ** The configuration ([pybel/config.py]) *)

(** The module runs once, when it is imported: it merges the sections of
    the configuration files into [config] and chooses [connection]. What
    it reads from outside, the environment, the files and the version,
    is the input of the model; what it leaves, [config], [connection]
    and the directory it may create, is the result. *)
Module Config.

(** [s.endswith(suffix)] *)
Fixpoint endswith (s suffix : string) : bool :=
  if bool_decide (s = suffix) then true
  else match s with
       | EmptyString => false
       | String _ s' => endswith s' suffix
       end.

Definition startswith_sep (s : string) : bool :=
  match s with
  | String "/"%char _ => true
  | _ => false
  end.

(** [os.path.join(a, b)] of [posixpath]. *)
Definition path_join (a b : string) : string :=
  if startswith_sep b then b
  else if bool_decide (a = "") || endswith a "/" then a +:+ b
  else a +:+ "/" +:+ b.

(** What the module reads: [VERSION] of [pybel/version.py], the
    directory [pystow.get('pybel')], [os.environ], and the sections that
    [config_parser] holds once it has read the files of
    [CONFIG_FILE_PATHS], each with the options that the parser gives for
    it. *)
Record inputs : Type := {
  VERSION : string;
  pystow_home : string;
  environ : gmap string string;
  sections : gmap string (gmap string string)
}.

Definition PYBEL_MINIMUM_IMPORT_VERSION : nat * nat * nat := (0, 14, 0)%nat.

(** ['pybel_{}.{}.{}_cache.db'.format( *PYBEL_MINIMUM_IMPORT_VERSION)] *)
Definition DEFAULT_CACHE_NAME : string :=
  "pybel_" +:+ pretty PYBEL_MINIMUM_IMPORT_VERSION.1.1
  +:+ "." +:+ pretty PYBEL_MINIMUM_IMPORT_VERSION.1.2
  +:+ "." +:+ pretty PYBEL_MINIMUM_IMPORT_VERSION.2 +:+ "_cache.db".

Definition DEFAULT_CACHE_PATH (i : inputs) : string :=
  path_join (pystow_home i) DEFAULT_CACHE_NAME.

Definition DEFAULT_CACHE_CONNECTION (i : inputs) : string :=
  "sqlite:///" +:+ DEFAULT_CACHE_PATH i.

Definition PYBEL_CONNECTION : string := "PYBEL_CONNECTION".

(** [config.update(other)]: the options of [other] replace those that
    [config] has under the same key. *)
Definition update (config other : gmap string string) : gmap string string :=
  other ∪ config.

(** [config] after the two updates:
    [if 'pybel' in config_parser: config.update(config_parser['pybel'])]
    and [if VERSION.endswith('-dev') and 'pybel-dev' in config_parser:
    config.update(config_parser['pybel-dev'])]. *)
Definition load_config (i : inputs) : gmap string string :=
  let config := ∅ in
  let config :=
    match sections i !! "pybel" with
    | Some section => update config section
    | None => config
    end in
  let config :=
    if endswith (VERSION i) "-dev" then
      match sections i !! "pybel-dev" with
      | Some section => update config section
      | None => config
      end
    else config in
  config.

(** The module after its import: [config], [connection] and the
    directories that [os.makedirs] was called on. *)
Record module_state : Type := {
  config : gmap string string;
  connection : string;
  made_dirs : list string
}.

Definition import_module (i : inputs) : module_state :=
  let config := load_config i in
  match environ i !! PYBEL_CONNECTION with
  | Some c => {| config := config; connection := c; made_dirs := [] |}
  | None =>
      match config !! "connection" with
      | Some c => {| config := config; connection := c; made_dirs := [] |}
      | None =>
          {| config := config;
             connection := DEFAULT_CACHE_CONNECTION i;
             made_dirs := [pystow_home i] |}
      end
  end.

(** The option [k] of the section [name], when the files have both. *)
Definition section_option (i : inputs) (name k : string) : option string :=
  sections i !! name ≫= (fun section => section !! k).

End Config.

(** ** More graphs and inputs for the tests *)

Module MoreExamples.
Import Examples.

(** [test_subject_has_secretion]:
    [sec(p(MGI:S100b)) increases a(CHEBI:"nitric oxide")] *)
Definition s100b : dict := simple_node PROTEIN "MGI" "S100b".
Definition nitric_oxide : dict := simple_node ABUNDANCE "CHEBI" "nitric oxide".

Definition subject_secretion_edge : dict :=
  <[RELATION := VStr INCREASES]> {[ SUBJECT := secretion ]}.

Definition subject_has_secretion : BELGraph node_tuple :=
  one_edge s100b nitric_oxide subject_secretion_edge.

(** An edge from [cortisol] back to [hsd11b1], without qualifiers. *)
Definition back_edge : edge node_tuple :=
  (simple_node_to_tuple cortisol, simple_node_to_tuple hsd11b1,
   {[ RELATION := VStr DECREASES ]}).

Definition forth_edge : edge node_tuple :=
  (simple_node_to_tuple hsd11b1, simple_node_to_tuple cortisol, active_edge).

(** An edge whose object is degraded, and the graph in which it comes
    after an edge whose object only has a location. *)
Definition degraded_edge : dict :=
  <[RELATION := VStr INCREASES]> {[ OBJECT := modifier_record DEGRADATION ]}.

Definition located_then_degraded : BELGraph node_tuple :=
  {| node := node (one_edge il4 cxcl1 located_edge);
     edges := [ (simple_node_to_tuple il4, simple_node_to_tuple cxcl1, located_edge);
                (simple_node_to_tuple il4, simple_node_to_tuple cxcl1, degraded_edge) ] |}.

(** An edge without a relation. *)
Definition no_relation_edge : dict := {[ OBJECT := secretion ]}.

(** A node with an empty list of variants. *)
Definition no_variants : dict := <[VARIANTS := VList []]> p1.

(** The data of an edge with an evidence added. *)
Definition with_evidence (d : dict) : dict := <["evidence" := VStr "text"]> d.

(** A development version with a connection in both sections, and a
    released one with the environment variable set. *)
Definition dev_inputs : Config.inputs :=
  {| Config.VERSION := "0.14.0-dev";
     Config.pystow_home := "/home/user/.data/pybel";
     Config.environ := ∅;
     Config.sections :=
       <["pybel" := {[ "connection" := "sqlite:///main.db" ]}]>
         {[ "pybel-dev" := {[ "connection" := "sqlite:///dev.db" ]} ]} |}.


End MoreExamples.

(** * Properties *)

(** ** Results and loops *)

Lemma rbind_ok {A B : Type} (r : result A) (k : A → result B) (b : B) :
  rbind r k = Ok b ↔ ∃ a, r = Ok a ∧ k a = Ok b.
Proof.
  destruct r as [a|e]; simpl.
  - split; [eauto | intros (a' & [= <-] & Hk); exact Hk].
  - split; [discriminate | intros (a' & [=] & _)].
Qed.

Lemma rbind_raise {A B : Type} (r : result A) (k : A → result B) (e : exn) :
  r = Raise e → rbind r k = Raise e.
Proof. intros ->. reflexivity. Qed.

(** The loop of [_node_has_modifier] is [any], followed by the rest of
    the function when it finds nothing. *)
Lemma for_return_true_any {NodeRef : Type} (test : dict → result bool)
    (es : list (edge NodeRef)) (rest : result bool) :
  for_return_true test es rest
  = (b <~ any (fun e => test (edge_data e)) es ;; if b then Ok true else rest).
Proof.
  induction es as [|e es IH]; simpl; [reflexivity|].
  destruct (test (edge_data e)) as [[|]|err]; simpl; [reflexivity | exact IH | reflexivity].
Qed.

(** The loop stops at the first edge that passes the test: the edges
    after it and the rest of the function are not looked at. *)
Lemma for_return_true_first {NodeRef : Type} (test : dict → result bool)
    (pre post : list (edge NodeRef)) (e : edge NodeRef) (rest : result bool) :
  Forall (fun e' => test (edge_data e') = Ok false) pre →
  test (edge_data e) = Ok true →
  for_return_true test (pre ++ e :: post) rest = Ok true.
Proof.
  intros Hpre He. induction Hpre as [|e' pre He' _ IH]; simpl.
  - rewrite He. reflexivity.
  - rewrite He'. simpl. exact IH.
Qed.

(** When no edge passes the test, the function goes on. *)
Lemma for_return_true_none {NodeRef : Type} (test : dict → result bool)
    (es : list (edge NodeRef)) (rest : result bool) :
  Forall (fun e => test (edge_data e) = Ok false) es →
  for_return_true test es rest = rest.
Proof.
  induction 1 as [|e es He _ IH]; simpl; [reflexivity|].
  rewrite He. simpl. exact IH.
Qed.

(** ** The test of one edge *)

(** The test returns true exactly on an edge that carries the modifier,
    whatever else the data of the edge holds. *)
Lemma edge_has_modifier_true (side modifier : string) (d : dict) :
  edge_has_modifier side modifier d = Ok true ↔ carries side modifier d.
Proof.
  unfold edge_has_modifier, carries, dict_contains, dict_getitem.
  destruct (d !! side) as [v|] eqn:Hside.
  - rewrite bool_decide_eq_true_2 by eauto. simpl.
    destruct v as [|s|l|q]; simpl.
    + split; [discriminate | intros (q & [=] & _)].
    + split; [|intros (q & [=] & _)].
      destruct (bool_decide _); discriminate.
    + split; [|intros (q & [=] & _)].
      destruct (existsb _ l); discriminate.
    + unfold dict_contains, dict_getitem.
      destruct (q !! MODIFIER) as [m|] eqn:Hm.
      * rewrite bool_decide_eq_true_2 by eauto. simpl.
        split.
        -- intros [= Heq]. exists q. split; [reflexivity|].
           destruct m; simpl in Heq; try discriminate.
           apply bool_decide_eq_true_1 in Heq. by subst.
        -- intros (q' & [= <-] & Hq'). rewrite Hm in Hq'.
           injection Hq' as ->. simpl. by rewrite bool_decide_eq_true_2.
      * rewrite bool_decide_eq_false_2 by (intros [? ?]; discriminate).
        split; [discriminate|].
        intros (q' & [= <-] & Hq'). congruence.
  - rewrite bool_decide_eq_false_2 by (intros [? ?]; discriminate).
    split; [discriminate | intros (q & [=] & _)].
Qed.

(** On an edge whose record under [side] is a dictionary, or is not
    there, the test does not raise. *)
Lemma edge_has_modifier_total (side modifier : string) (d : dict) :
  qualifier_ok side d = true →
  ∃ b, edge_has_modifier side modifier d = Ok b.
Proof.
  unfold qualifier_ok, edge_has_modifier, dict_contains, dict_getitem.
  destruct (d !! side) as [v|] eqn:Hside.
  - rewrite bool_decide_eq_true_2 by eauto. simpl.
    destruct v as [|s|l|q]; try discriminate. intros _. simpl.
    unfold dict_contains, dict_getitem.
    destruct (q !! MODIFIER) as [m|] eqn:Hm.
    + rewrite bool_decide_eq_true_2 by eauto. simpl. eauto.
    + rewrite bool_decide_eq_false_2 by (intros [? ?]; discriminate). eauto.
  - rewrite bool_decide_eq_false_2 by (intros [? ?]; discriminate). eauto.
Qed.

(** A record without the key [MODIFIER] does not pass the test, and does
    not make it raise. *)
Lemma edge_has_modifier_lacks (side modifier : string) (d : dict) :
  lacks_modifier side d → edge_has_modifier side modifier d = Ok false.
Proof.
  intros (q & Hside & Hm).
  unfold edge_has_modifier, dict_contains, dict_getitem.
  rewrite Hside. rewrite bool_decide_eq_true_2 by eauto. simpl.
  unfold dict_contains. rewrite Hm.
  rewrite bool_decide_eq_false_2 by (intros [? ?]; discriminate). reflexivity.
Qed.

Lemma edge_has_modifier_absent (side modifier : string) (d : dict) :
  d !! side = None → edge_has_modifier side modifier d = Ok false.
Proof.
  intros Hside. unfold edge_has_modifier, dict_contains. rewrite Hside.
  rewrite bool_decide_eq_false_2 by (intros [? ?]; discriminate). reflexivity.
Qed.

(** A loop over tests that do not raise, each of which decides a
    property, decides whether some element has the property. *)
Lemma any_decides {A : Type} (f : A → result bool) (P : A → Prop) (l : list A) :
  Forall (fun x => ∃ b, f x = Ok b ∧ (b = true ↔ P x)) l →
  ∃ b, any f l = Ok b ∧ (b = true ↔ ∃ x, x ∈ l ∧ P x).
Proof.
  induction 1 as [|x l (bx & Hfx & HP) _ (b & Hl & Hb)]; simpl.
  - exists false. split; [reflexivity|].
    split; [discriminate | intros (x & Hx & _); by apply elem_of_nil in Hx].
  - rewrite Hfx. simpl. destruct bx.
    + exists true. split; [reflexivity|].
      split; [|reflexivity]. intros _. exists x.
      split; [apply list_elem_of_here | by apply HP].
    + exists b. split; [exact Hl|]. rewrite Hb. split.
      * intros (y & Hy & HPy). exists y. split; [by apply list_elem_of_further | exact HPy].
      * intros (y & Hy & HPy). apply elem_of_cons in Hy as [->|Hy].
        -- apply HP in HPy. discriminate.
        -- eauto.
Qed.

(** A loop that returns true has met an element whose test is true. *)
Lemma any_true_inv {A : Type} (f : A → result bool) (l : list A) :
  any f l = Ok true → ∃ x, x ∈ l ∧ f x = Ok true.
Proof.
  induction l as [|x l IH]; simpl; [discriminate|].
  destruct (f x) as [[|]|err] eqn:Hfx; simpl; [|intros Hl|discriminate].
  - intros _. exists x. split; [apply list_elem_of_here | exact Hfx].
  - destruct (IH Hl) as (y & Hy & Hfy). exists y.
    split; [by apply list_elem_of_further | exact Hfy].
Qed.

(** ** The scan of the edges of a node *)

Section Scanner.

Context {NodeRef : Type} `{Countable NodeRef}.

Implicit Types (graph : BELGraph NodeRef) (n u v : NodeRef) (e : edge NodeRef).

Lemma in_edges_iter_present graph n :
  is_Some (node graph !! n) →
  in_edges_iter graph n = Ok (filter (fun e => edge_target e = n) (edges graph)).
Proof. intros [d Hd]. unfold in_edges_iter. by rewrite Hd. Qed.

Lemma out_edges_iter_present graph n :
  is_Some (node graph !! n) →
  out_edges_iter graph n = Ok (filter (fun e => edge_source e = n) (edges graph)).
Proof. intros [d Hd]. unfold out_edges_iter. by rewrite Hd. Qed.

Lemma in_edges_iter_absent graph n :
  node graph !! n = None → in_edges_iter graph n = Raise NodeNotFound.
Proof. intros Hn. unfold in_edges_iter. by rewrite Hn. Qed.

Lemma out_edges_iter_absent graph n :
  node graph !! n = None → out_edges_iter graph n = Raise NodeNotFound.
Proof. intros Hn. unfold out_edges_iter. by rewrite Hn. Qed.

Lemma in_edges_iter_elem graph n es e :
  in_edges_iter graph n = Ok es → e ∈ es ↔ in_edge graph n e.
Proof.
  unfold in_edges_iter, in_edge. destruct (node graph !! n); [|discriminate].
  intros [= <-]. rewrite list_elem_of_filter. tauto.
Qed.

Lemma out_edges_iter_elem graph n es e :
  out_edges_iter graph n = Ok es → e ∈ es ↔ out_edge graph n e.
Proof.
  unfold out_edges_iter, out_edge. destruct (node graph !! n); [|discriminate].
  intros [= <-]. rewrite list_elem_of_filter. tauto.
Qed.

Lemma qualifiers_ok_edge graph e :
  qualifiers_ok graph = true → e ∈ edges graph →
  qualifier_ok SUBJECT (edge_data e) = true
  ∧ qualifier_ok OBJECT (edge_data e) = true.
Proof.
  unfold qualifiers_ok. rewrite forallb_forall. intros Hall He.
  apply list_elem_of_In, Hall, andb_true_iff in He. exact He.
Qed.

(** The test of an edge of a graph of the right shape does not raise,
    and decides whether the edge carries the modifier. *)
Lemma edge_has_modifier_decides (side modifier : string) (d : dict) :
  qualifier_ok side d = true →
  ∃ b, edge_has_modifier side modifier d = Ok b
       ∧ (b = true ↔ carries side modifier d).
Proof.
  intros Hok. destruct (edge_has_modifier_total side modifier d Hok) as [b Hb].
  exists b. split; [exact Hb|].
  rewrite <- edge_has_modifier_true, Hb. split; congruence.
Qed.

Lemma node_has_modifier_decides graph n (modifier : string) :
  qualifiers_ok graph = true →
  is_Some (node graph !! n) →
  ∃ b, _node_has_modifier graph n modifier = Ok b
       ∧ (b = true ↔ has_modifier_spec graph n modifier).
Proof.
  intros Hwf Hn. unfold _node_has_modifier, has_modifier_spec.
  pose proof (in_edges_iter_present graph n Hn) as Hin.
  pose proof (out_edges_iter_present graph n Hn) as Hout.
  rewrite Hin, Hout. simpl. rewrite !for_return_true_any.
  destruct (any_decides (fun e => edge_has_modifier OBJECT modifier (edge_data e))
              (fun e => carries OBJECT modifier (edge_data e))
              (filter (fun e => edge_target e = n) (edges graph)))
    as (b1 & -> & Hb1).
  { apply Forall_forall. intros e He. apply list_elem_of_filter in He as [_ He].
    apply edge_has_modifier_decides. by apply (qualifiers_ok_edge graph e). }
  destruct (any_decides (fun e => edge_has_modifier SUBJECT modifier (edge_data e))
              (fun e => carries SUBJECT modifier (edge_data e))
              (filter (fun e => edge_source e = n) (edges graph)))
    as (b2 & -> & Hb2).
  { apply Forall_forall. intros e He. apply list_elem_of_filter in He as [_ He].
    apply edge_has_modifier_decides. by apply (qualifiers_ok_edge graph e). }
  assert (Hins : ∀ e, e ∈ filter (fun e => edge_target e = n) (edges graph)
                      ↔ in_edge graph n e)
    by (intros e; by apply in_edges_iter_elem).
  assert (Houts : ∀ e, e ∈ filter (fun e => edge_source e = n) (edges graph)
                       ↔ out_edge graph n e)
    by (intros e; by apply out_edges_iter_elem).
  simpl. destruct b1; simpl.
  - exists true. split; [reflexivity|]. split; [|reflexivity]. intros _. left.
    destruct Hb1 as [(e & He & Hc) _]; [reflexivity|].
    exists e. split; [by apply Hins | exact Hc].
  - exists b2. split; [by destruct b2|]. rewrite Hb2. split.
    + intros (e & He & Hc). right. exists e. split; [by apply Houts | exact Hc].
    + intros [(e & He & Hc)|(e & He & Hc)].
      * assert (false = true) as [=]. apply Hb1. exists e.
        split; [by apply Hins | exact Hc].
      * exists e. split; [by apply Houts | exact Hc].
Qed.

Lemma decides_true (r : result bool) (P : Prop) :
  (∃ b, r = Ok b ∧ (b = true ↔ P)) → P → r = Ok true.
Proof. intros (b & -> & Hb) HP. f_equal. by apply Hb. Qed.

Lemma decides_false (r : result bool) (P : Prop) :
  (∃ b, r = Ok b ∧ (b = true ↔ P)) → ¬ P → r = Ok false.
Proof.
  intros (b & -> & Hb) HP. f_equal. destruct b; [|reflexivity].
  exfalso. by apply HP, Hb.
Qed.

(** A record has one modifier. *)
Lemma carries_functional (side m m' : string) (d : dict) :
  carries side m d → carries side m' d → m = m'.
Proof. intros (q & Hq & Hm) (q' & Hq' & Hm'). congruence. Qed.

Lemma carries_qualifier_ok (side m : string) (d : dict) :
  carries side m d → qualifier_ok side d = true.
Proof. intros (q & Hq & _). unfold qualifier_ok. by rewrite Hq. Qed.

(** In a graph with the single edge [(a, b, d)], what the scan looks for
    is on that edge. *)
Lemma has_modifier_spec_single graph a b d n (modifier : string) :
  edges graph = [(a, b, d)] →
  has_modifier_spec graph n modifier
  ↔ (n = b ∧ carries OBJECT modifier d) ∨ (n = a ∧ carries SUBJECT modifier d).
Proof.
  intros Hedges. unfold has_modifier_spec, in_edge, out_edge. rewrite Hedges.
  split.
  - intros [(e & [He Hn] & Hc)|(e & [He Hn] & Hc)];
      apply list_elem_of_singleton in He; subst e; simpl in *; auto.
  - intros [[-> Hc]|[-> Hc]]; [left|right];
      (exists (a, b, d); split; [split; [apply list_elem_of_here | reflexivity] | exact Hc]).
Qed.

(** Whatever the graph holds, the scan only returns true when it has
    met what it looks for. *)
Lemma node_has_modifier_sound graph n (modifier : string) :
  _node_has_modifier graph n modifier = Ok true →
  has_modifier_spec graph n modifier.
Proof.
  unfold _node_has_modifier. intros Hscan.
  apply rbind_ok in Hscan as (ins & Hin & Hscan).
  rewrite for_return_true_any in Hscan.
  apply rbind_ok in Hscan as ([|] & Hany & Hrest).
  - left. apply any_true_inv in Hany as (e & He & Htest). exists e.
    split; [by apply (in_edges_iter_elem graph n ins) | by apply edge_has_modifier_true].
  - apply rbind_ok in Hrest as (outs & Hout & Hrest).
    rewrite for_return_true_any in Hrest.
    apply rbind_ok in Hrest as ([|] & Hany' & Hrest); [|discriminate].
    right. apply any_true_inv in Hany' as (e & He & Htest). exists e.
    split; [by apply (out_edges_iter_elem graph n outs) | by apply edge_has_modifier_true].
Qed.

(** C1. [_node_has_modifier] only returns true when an edge that arrives
    at the node carries the modifier on its object or an edge that
    leaves it carries the modifier on its subject. On a graph whose
    records under [SUBJECT] and [OBJECT] are dictionaries, and for a
    node of the graph, it returns, and returns true exactly then. The scan returns true at the
    first edge that matches, whatever the edges after it hold: first
    among the edges that arrive, then, when none of them matches, among
    the edges that leave. On the graph with the single edge from [a] to
    [b] whose subject has the modifier [ACTIVITY] and whose object has
    the modifier [DEGRADATION], [a] is active and not degraded, and [b]
    is degraded and not active. *)
Theorem node_has_modifier_correct graph :
  (∀ n modifier,
     _node_has_modifier graph n modifier = Ok true →
     has_modifier_spec graph n modifier)
  ∧ (qualifiers_ok graph = true →
     ∀ n modifier, is_Some (node graph !! n) →
       ∃ b, _node_has_modifier graph n modifier = Ok b
            ∧ (b = true ↔ has_modifier_spec graph n modifier))
  ∧ (∀ n modifier pre e post,
       in_edges_iter graph n = Ok (pre ++ e :: post) →
       Forall (fun e' => edge_has_modifier OBJECT modifier (edge_data e') = Ok false) pre →
       carries OBJECT modifier (edge_data e) →
       _node_has_modifier graph n modifier = Ok true)
  ∧ (∀ n modifier ins pre e post,
       in_edges_iter graph n = Ok ins →
       Forall (fun e' => edge_has_modifier OBJECT modifier (edge_data e') = Ok false) ins →
       out_edges_iter graph n = Ok (pre ++ e :: post) →
       Forall (fun e' => edge_has_modifier SUBJECT modifier (edge_data e') = Ok false) pre →
       carries SUBJECT modifier (edge_data e) →
       _node_has_modifier graph n modifier = Ok true)
  ∧ (∀ a b d,
       edges graph = [(a, b, d)] → a ≠ b →
       is_Some (node graph !! a) → is_Some (node graph !! b) →
       carries SUBJECT ACTIVITY d → carries OBJECT DEGRADATION d →
       has_activity graph a = Ok true ∧ is_degraded graph a = Ok false
       ∧ has_activity graph b = Ok false ∧ is_degraded graph b = Ok true).
Proof.
  split; [|split; [|split; [|split]]].
  - intros n modifier. apply node_has_modifier_sound.
  - intros Hwf n modifier Hn. by apply node_has_modifier_decides.
  - intros n modifier pre e post Hin Hpre He. unfold _node_has_modifier.
    rewrite Hin. simpl. apply for_return_true_first; [exact Hpre|].
    by apply edge_has_modifier_true.
  - intros n modifier ins pre e post Hin Hins Hout Hpre He.
    unfold _node_has_modifier. rewrite Hin. simpl.
    rewrite for_return_true_none by exact Hins. rewrite Hout. simpl.
    apply for_return_true_first; [exact Hpre|].
    by apply edge_has_modifier_true.
  - intros a b d Hedges Hab Ha Hb Hsubj Hobj.
    assert (qualifiers_ok graph = true) as Hwf.
    { unfold qualifiers_ok. rewrite Hedges. simpl.
      rewrite (carries_qualifier_ok _ _ _ Hsubj), (carries_qualifier_ok _ _ _ Hobj).
      reflexivity. }
    unfold has_activity, is_degraded.
    repeat split.
    + apply (decides_true _ _ (node_has_modifier_decides graph a ACTIVITY Hwf Ha)).
      apply (has_modifier_spec_single graph a b d); auto.
    + apply (decides_false _ _ (node_has_modifier_decides graph a DEGRADATION Hwf Ha)).
      rewrite (has_modifier_spec_single graph a b d) by exact Hedges.
      intros [[Heq _]|[_ Hc]]; [by apply Hab|].
      by pose proof (carries_functional _ _ _ _ Hsubj Hc).
    + apply (decides_false _ _ (node_has_modifier_decides graph b ACTIVITY Hwf Hb)).
      rewrite (has_modifier_spec_single graph a b d) by exact Hedges.
      intros [[_ Hc]|[Heq _]]; [|by apply Hab].
      by pose proof (carries_functional _ _ _ _ Hobj Hc).
    + apply (decides_true _ _ (node_has_modifier_decides graph b DEGRADATION Hwf Hb)).
      apply (has_modifier_spec_single graph a b d); auto.
Qed.

(** ** Causal edges *)

Lemma relations_ok_edge graph e :
  relations_ok graph = true → e ∈ edges graph → relation_ok (edge_data e) = true.
Proof.
  unfold relations_ok. rewrite forallb_forall. intros Hall He.
  by apply list_elem_of_In, Hall in He.
Qed.

Lemma edge_is_causal_decides e :
  relation_ok (edge_data e) = true →
  ∃ b, edge_is_causal e = Ok b ∧ (b = true ↔ causal (edge_data e)).
Proof.
  unfold relation_ok, edge_is_causal, causal, dict_getitem.
  destruct (edge_data e !! RELATION) as [[|r|l|q]|]; try discriminate.
  intros _. simpl. eexists. split; [reflexivity|].
  rewrite bool_decide_eq_true. split.
  - intros Hr. eauto.
  - intros (r' & [= <-] & Hr). exact Hr.
Qed.

Lemma has_causal_in_edges_decides graph n :
  relations_ok graph = true → is_Some (node graph !! n) →
  ∃ b, has_causal_in_edges graph n = Ok b
       ∧ (b = true ↔ ∃ e, in_edge graph n e ∧ causal (edge_data e)).
Proof.
  intros Hwf Hn. unfold has_causal_in_edges.
  pose proof (in_edges_iter_present graph n Hn) as Hin. rewrite Hin. simpl.
  destruct (any_decides edge_is_causal (fun e => causal (edge_data e))
              (filter (fun e => edge_target e = n) (edges graph)))
    as (b & -> & Hb).
  { apply Forall_forall. intros e He. apply list_elem_of_filter in He as [_ He].
    by apply edge_is_causal_decides, (relations_ok_edge graph). }
  exists b. split; [reflexivity|]. rewrite Hb.
  split; intros (e & He & Hc); exists e; (split; [|exact Hc]);
    by apply (in_edges_iter_elem graph n _ e Hin).
Qed.

Lemma has_causal_out_edges_decides graph n :
  relations_ok graph = true → is_Some (node graph !! n) →
  ∃ b, has_causal_out_edges graph n = Ok b
       ∧ (b = true ↔ ∃ e, out_edge graph n e ∧ causal (edge_data e)).
Proof.
  intros Hwf Hn. unfold has_causal_out_edges.
  pose proof (out_edges_iter_present graph n Hn) as Hout. rewrite Hout. simpl.
  destruct (any_decides edge_is_causal (fun e => causal (edge_data e))
              (filter (fun e => edge_source e = n) (edges graph)))
    as (b & -> & Hb).
  { apply Forall_forall. intros e He. apply list_elem_of_filter in He as [_ He].
    by apply edge_is_causal_decides, (relations_ok_edge graph). }
  exists b. split; [reflexivity|]. rewrite Hb.
  split; intros (e & He & Hc); exists e; (split; [|exact Hc]);
    by apply (out_edges_iter_elem graph n _ e Hout).
Qed.

(** C6. On a graph whose edges all hold a relation, and for a node of
    the graph, [has_causal_in_edges] returns, and returns true exactly
    when the relation of an edge that arrives at the node is one of
    [CAUSAL_RELATIONS]; [has_causal_out_edges] does the same with the
    edges that leave the node. On the graph with a single edge, from
    [a] to [b] and causal, [a] has a causal edge that leaves and none
    that arrives, and [b] has a causal edge that arrives and none that
    leaves. *)
Theorem has_causal_edges_correct graph :
  (relations_ok graph = true →
   ∀ n, is_Some (node graph !! n) →
     (∃ b, has_causal_in_edges graph n = Ok b
           ∧ (b = true ↔ ∃ e, in_edge graph n e ∧ causal (edge_data e)))
     ∧ (∃ b, has_causal_out_edges graph n = Ok b
             ∧ (b = true ↔ ∃ e, out_edge graph n e ∧ causal (edge_data e))))
  ∧ (∀ a b d,
       edges graph = [(a, b, d)] → a ≠ b →
       is_Some (node graph !! a) → is_Some (node graph !! b) →
       causal d →
       has_causal_out_edges graph a = Ok true
       ∧ has_causal_in_edges graph a = Ok false
       ∧ has_causal_in_edges graph b = Ok true
       ∧ has_causal_out_edges graph b = Ok false).
Proof.
  split.
  - intros Hwf n Hn. split.
    + by apply has_causal_in_edges_decides.
    + by apply has_causal_out_edges_decides.
  - intros a b d Hedges Hab Ha Hb Hd.
    assert (relations_ok graph = true) as Hwf.
    { unfold relations_ok, relation_ok. rewrite Hedges. simpl.
      destruct Hd as (r & -> & _). reflexivity. }
    assert (Hthe : ∀ e, e ∈ edges graph ↔ e = (a, b, d))
      by (intros e; rewrite Hedges; apply list_elem_of_singleton).
    repeat split.
    + apply (decides_true _ _ (has_causal_out_edges_decides graph a Hwf Ha)).
      exists (a, b, d). split; [split; [by apply Hthe | reflexivity] | exact Hd].
    + apply (decides_false _ _ (has_causal_in_edges_decides graph a Hwf Ha)).
      intros (e & [He Ht] & _). apply Hthe in He. subst e. by apply Hab.
    + apply (decides_true _ _ (has_causal_in_edges_decides graph b Hwf Hb)).
      exists (a, b, d). split; [split; [by apply Hthe | reflexivity] | exact Hd].
    + apply (decides_false _ _ (has_causal_out_edges_decides graph b Hwf Hb)).
      intros (e & [He Ht] & _). apply Hthe in He. subst e. by apply Hab.
Qed.

(** ** Translocations *)

Lemma translocation_carries (from_loc to_loc : value) (d : dict) :
  d !! OBJECT = Some (translocation from_loc to_loc) →
  carries OBJECT TRANSLOCATION d.
Proof.
  intros Hd. unfold carries, translocation in *. eexists. split; [exact Hd|].
  apply lookup_insert_eq.
Qed.

(** C7. In a graph whose records under [SUBJECT] and [OBJECT] are
    dictionaries, an edge from [u] to [v] whose object has the modifier
    [TRANSLOCATION] makes [is_translocated] true of [v]; so does an edge
    whose object is a translocation between two locations, and an edge
    whose object is a secretion, which is a translocation. *)
Theorem is_translocated_object graph u v d :
  qualifiers_ok graph = true →
  is_Some (node graph !! v) →
  (u, v, d) ∈ edges graph →
  (carries OBJECT TRANSLOCATION d → is_translocated graph v = Ok true)
  ∧ (∀ from_loc to_loc,
       d !! OBJECT = Some (translocation from_loc to_loc) →
       is_translocated graph v = Ok true)
  ∧ (d !! OBJECT = Some secretion → is_translocated graph v = Ok true).
Proof.
  intros Hwf Hv He.
  assert (carries OBJECT TRANSLOCATION d → is_translocated graph v = Ok true) as Hc.
  { intros Hc. unfold is_translocated.
    apply (decides_true _ _ (node_has_modifier_decides graph v TRANSLOCATION Hwf Hv)).
    left. exists (u, v, d). split; [split; [exact He | reflexivity] | exact Hc]. }
  split; [exact Hc|]. split.
  - intros from_loc to_loc Hd. by apply Hc, (translocation_carries from_loc to_loc).
  - intros Hd. by apply Hc, (translocation_carries _ _ _ Hd).
Qed.

(** ** A node that the graph does not hold *)

(** C8. The scan does not look whether the graph holds the node: the
    error with which the graph refuses to give the edges of a node is
    the result of [_node_has_modifier] and of the predicates on causal
    edges. So for a node that the graph does not hold,
    [_node_has_modifier], [has_activity], [is_degraded],
    [is_translocated], [has_causal_in_edges] and [has_causal_out_edges]
    all fail with [NodeNotFound]. *)
Theorem scan_of_absent_node graph n :
  (∀ err, in_edges_iter graph n = Raise err →
     (∀ modifier, _node_has_modifier graph n modifier = Raise err)
     ∧ has_causal_in_edges graph n = Raise err)
  ∧ (∀ err, out_edges_iter graph n = Raise err →
       has_causal_out_edges graph n = Raise err)
  ∧ (node graph !! n = None →
       (∀ modifier, _node_has_modifier graph n modifier = Raise NodeNotFound)
       ∧ Forall (fun p => p graph n = Raise NodeNotFound) edge_predicates).
Proof.
  split; [|split].
  - intros err Hin. split; [intros modifier|].
    + unfold _node_has_modifier. by apply rbind_raise.
    + unfold has_causal_in_edges. by apply rbind_raise.
  - intros err Hout. unfold has_causal_out_edges. by apply rbind_raise.
  - intros Hn.
    pose proof (in_edges_iter_absent graph n Hn) as Hin.
    pose proof (out_edges_iter_absent graph n Hn) as Hout.
    assert (∀ modifier, _node_has_modifier graph n modifier = Raise NodeNotFound) as Hscan
      by (intros modifier; unfold _node_has_modifier; by apply rbind_raise).
    split; [exact Hscan|].
    unfold edge_predicates, has_activity, is_degraded, is_translocated,
      has_causal_in_edges, has_causal_out_edges.
    repeat constructor; auto; by apply rbind_raise.
Qed.

(** ** Records without a modifier *)

(** Taking away a record without the key [MODIFIER] changes no test of
    the edge. *)
Lemma edge_has_modifier_delete (side side' modifier : string) (d : dict) :
  lacks_modifier side d →
  edge_has_modifier side' modifier (delete side d)
  = edge_has_modifier side' modifier d.
Proof.
  intros Hlacks. destruct (decide (side' = side)) as [->|Hne].
  - rewrite (edge_has_modifier_lacks side modifier d Hlacks).
    apply edge_has_modifier_absent, lookup_delete_eq.
  - unfold edge_has_modifier, dict_contains, dict_getitem.
    rewrite lookup_delete_ne by congruence. reflexivity.
Qed.

(** The loop over the edges at [n] only depends on the ends of the
    edges and on the outcome of the test on each of them. *)
Lemma for_return_true_filter_ext (test : dict → result bool)
    (proj : edge NodeRef → NodeRef) n (l l' : list (edge NodeRef))
    (rest : result bool) :
  Forall2 (fun e e' => proj e = proj e'
                       ∧ test (edge_data e) = test (edge_data e')) l l' →
  for_return_true test (filter (fun e => proj e = n) l) rest
  = for_return_true test (filter (fun e => proj e = n) l') rest.
Proof.
  induction 1 as [|e e' l l' [Hproj Htest] _ IH]; [reflexivity|].
  rewrite !filter_cons, <- Hproj.
  destruct (decide (proj e = n)); simpl; [|exact IH].
  rewrite <- Htest, IH. reflexivity.
Qed.

Lemma node_has_modifier_ext graph graph' n (modifier : string) :
  node graph = node graph' →
  Forall2 (fun e e' =>
             edge_source e = edge_source e' ∧ edge_target e = edge_target e'
             ∧ ∀ side, edge_has_modifier side modifier (edge_data e)
                       = edge_has_modifier side modifier (edge_data e'))
          (edges graph) (edges graph') →
  _node_has_modifier graph n modifier = _node_has_modifier graph' n modifier.
Proof.
  intros Hnode Hedges.
  unfold _node_has_modifier, in_edges_iter, out_edges_iter. rewrite <- Hnode.
  destruct (node graph !! n); [simpl|reflexivity].
  rewrite (for_return_true_filter_ext (edge_has_modifier SUBJECT modifier)
             edge_source n (edges graph) (edges graph') (Ok false)).
  - apply for_return_true_filter_ext.
    eapply Forall2_impl; [exact Hedges|]. simpl. intros e e' (_ & Ht & Htest). auto.
  - eapply Forall2_impl; [exact Hedges|]. simpl. intros e e' (Hs & _ & Htest). auto.
Qed.

Lemma Forall_filter_weaken {A : Type} (P Q : A → Prop)
    `{∀ x, Decision (Q x)} (l : list A) :
  Forall P l → Forall P (filter Q l).
Proof.
  rewrite !Forall_forall. intros Hall x Hx.
  apply list_elem_of_filter in Hx as [_ Hx]. by apply Hall.
Qed.

Lemma qualifier_ok_delete (s side : string) (d : dict) :
  qualifier_ok s d = true → qualifier_ok s (delete side d) = true.
Proof.
  unfold qualifier_ok. destruct (decide (s = side)) as [->|Hne].
  - by rewrite lookup_delete_eq.
  - by rewrite lookup_delete_ne.
Qed.

(** An edge with no record under [side], or with a record that has no
    key [MODIFIER], does not pass the test. *)
Lemma edge_has_modifier_no_modifier (side modifier : string) (d : dict) :
  d !! side = None ∨ lacks_modifier side d →
  edge_has_modifier side modifier d = Ok false.
Proof.
  intros [Hnone|Hlacks].
  - by apply edge_has_modifier_absent.
  - by apply edge_has_modifier_lacks.
Qed.

(** C9. In a graph that has an edge with a record, under [SUBJECT] or
    [OBJECT], without the key [MODIFIER]: the record does not pass the
    test of the scan and does not make it raise, and the result of
    [_node_has_modifier], for every node and modifier, is the one on the
    graph from which the record has been taken away. When the records of
    the graph are dictionaries, with the key or without it, the scan of
    a node of the graph returns, and returns true exactly when an edge
    matches once that record is left out: false, and no error, when no
    other record matches. The scan goes past edges that have no record
    or a record without the key, and returns true at a later edge that
    matches, among the edges that arrive and then among those that
    leave. *)
Theorem node_has_modifier_skips_records_without_modifier
    (nodes : gmap NodeRef dict) (pre post : list (edge NodeRef))
    u v (d : dict) (side : string) :
  lacks_modifier side d →
  (∀ modifier, edge_has_modifier side modifier d = Ok false)
  ∧ (∀ n modifier,
       _node_has_modifier {| node := nodes; edges := pre ++ (u, v, d) :: post |}
         n modifier
       = _node_has_modifier
           {| node := nodes; edges := pre ++ (u, v, delete side d) :: post |}
           n modifier)
  ∧ (qualifiers_ok {| node := nodes; edges := pre ++ (u, v, d) :: post |} = true →
     ∀ n modifier,
       is_Some (nodes !! n) →
       ∃ b,
         _node_has_modifier {| node := nodes; edges := pre ++ (u, v, d) :: post |}
           n modifier = Ok b
         ∧ (b = true
            ↔ has_modifier_spec
                {| node := nodes; edges := pre ++ (u, v, delete side d) :: post |}
                n modifier))
  ∧ (∀ n modifier skipped e rest,
       in_edges_iter {| node := nodes; edges := pre ++ (u, v, d) :: post |} n
       = Ok (skipped ++ e :: rest) →
       Forall (fun e' => edge_data e' !! OBJECT = None
                         ∨ lacks_modifier OBJECT (edge_data e')) skipped →
       carries OBJECT modifier (edge_data e) →
       _node_has_modifier {| node := nodes; edges := pre ++ (u, v, d) :: post |}
         n modifier = Ok true)
  ∧ (∀ n modifier ins skipped e rest,
       in_edges_iter {| node := nodes; edges := pre ++ (u, v, d) :: post |} n
       = Ok ins →
       Forall (fun e' => edge_data e' !! OBJECT = None
                         ∨ lacks_modifier OBJECT (edge_data e')) ins →
       out_edges_iter {| node := nodes; edges := pre ++ (u, v, d) :: post |} n
       = Ok (skipped ++ e :: rest) →
       Forall (fun e' => edge_data e' !! SUBJECT = None
                         ∨ lacks_modifier SUBJECT (edge_data e')) skipped →
       carries SUBJECT modifier (edge_data e) →
       _node_has_modifier {| node := nodes; edges := pre ++ (u, v, d) :: post |}
         n modifier = Ok true).
Proof.
  intros Hlacks.
  assert (∀ n modifier,
            _node_has_modifier
              {| node := nodes; edges := pre ++ (u, v, d) :: post |} n modifier
            = _node_has_modifier
                {| node := nodes; edges := pre ++ (u, v, delete side d) :: post |}
                n modifier) as Hdelete.
  { intros n modifier. apply node_has_modifier_ext; [reflexivity|]. simpl.
    apply Forall2_app; [by apply Forall_Forall2_diag, Forall_true|].
    constructor; [|by apply Forall_Forall2_diag, Forall_true].
    repeat split. intros side'. simpl. symmetry.
    by apply edge_has_modifier_delete. }
  assert (∀ (s modifier : string) (es : list (edge NodeRef)),
            Forall (fun e' => edge_data e' !! s = None
                              ∨ lacks_modifier s (edge_data e')) es →
            Forall (fun e' => edge_has_modifier s modifier (edge_data e') = Ok false)
                   es) as Hskip.
  { intros s modifier es Hes. eapply Forall_impl; [exact Hes|]. simpl.
    intros e'. apply edge_has_modifier_no_modifier. }
  split; [|split; [|split; [|split]]].
  - intros modifier. by apply edge_has_modifier_lacks.
  - exact Hdelete.
  - intros Hwf n modifier Hn.
    assert (qualifiers_ok
              {| node := nodes; edges := pre ++ (u, v, delete side d) :: post |}
            = true) as Hwf'.
    { unfold qualifiers_ok in *. simpl in *. rewrite forallb_app in *. simpl in *.
      apply andb_true_iff in Hwf as [Hpre Hrest].
      apply andb_true_iff in Hrest as [Hd Hpost].
      apply andb_true_iff in Hd as [Hsubj Hobj].
      rewrite Hpre, Hpost. unfold edge_data in *. simpl in *.
      by rewrite (qualifier_ok_delete SUBJECT side d Hsubj),
        (qualifier_ok_delete OBJECT side d Hobj). }
    rewrite Hdelete.
    exact (node_has_modifier_decides
             {| node := nodes; edges := pre ++ (u, v, delete side d) :: post |}
             n modifier Hwf' Hn).
  - intros n modifier skipped e rest Hin Hskipped He.
    unfold _node_has_modifier. rewrite Hin. simpl.
    apply for_return_true_first; [by apply Hskip|].
    by apply edge_has_modifier_true.
  - intros n modifier ins skipped e rest Hin Hins Hout Hskipped He.
    unfold _node_has_modifier. rewrite Hin. simpl.
    rewrite for_return_true_none by (by apply Hskip). rewrite Hout. simpl.
    apply for_return_true_first; [by apply Hskip|].
    by apply edge_has_modifier_true.
Qed.

End Scanner.

(** ** The decorator *)

Section Adapter.

Context {NodeRef : Type} `{Countable NodeRef}.

Implicit Types (graph : BELGraph NodeRef) (n : NodeRef) (fn : pyfun NodeRef)
  (data : dict) (x : pyobj NodeRef) (extra rest : list (pyobj NodeRef)).

(** In the graph form the decorated function is called on the data that
    the graph holds for the node, with the arguments that follow. *)
Lemma node_predicate_graph fn graph n data extra :
  node graph !! n = Some data →
  node_predicate fn (PyGraph graph :: PyNode n :: extra) = fn data extra.
Proof. intros Hn. simpl. rewrite Hn. reflexivity. Qed.

Lemma node_predicate_data fn data rest :
  node_predicate fn (PyValue (VDict data) :: rest) = fn data rest.
Proof. reflexivity. Qed.

(** C2. For a decorated function, a graph and a node of the graph, the
    call on the graph and the node gives what the call on the data of
    the node gives, the data being what the look-up of the node in the
    graph returns; the same holds with further arguments. *)
Theorem node_predicate_graph_form_agrees fn graph n data extra :
  node graph !! n = Some data →
  node_getitem graph (PyNode n) = Ok data
  ∧ node_predicate fn [PyGraph graph; PyNode n]
    = node_predicate fn [PyValue (VDict data)]
  ∧ node_predicate fn (PyGraph graph :: PyNode n :: extra)
    = node_predicate fn (PyValue (VDict data) :: extra).
Proof.
  intros Hn. split; [|split].
  - simpl. rewrite Hn. reflexivity.
  - rewrite (node_predicate_graph fn graph n data [] Hn).
    symmetry. apply node_predicate_data.
  - rewrite (node_predicate_graph fn graph n data extra Hn).
    symmetry. apply node_predicate_data.
Qed.

(** C4. A decorated function called without arguments, or with a first
    argument that is neither a graph nor a data dictionary, raises
    [ValueError]: the error is the result of the call. *)
Theorem node_predicate_invalid_argument fn :
  node_predicate fn [] = Raise ValueError
  ∧ (∀ x rest, is_graph x = false → is_data x = false →
       node_predicate fn (x :: rest) = Raise ValueError).
Proof.
  split; [reflexivity|].
  intros x rest Hgraph Hdata.
  destruct x as [graph|n|v]; simpl in *.
  - discriminate.
  - reflexivity.
  - destruct v; [reflexivity..|discriminate].
Qed.

(** C10. A decorated function called on a graph alone does not raise
    [ValueError]: the branch of the graph is taken before the second
    argument is looked for, and the call fails with [IndexError]. *)
Theorem node_predicate_graph_alone fn graph :
  node_predicate fn [PyGraph graph] = Raise IndexError
  ∧ node_predicate fn [PyGraph graph] ≠ Raise ValueError.
Proof.
  assert (node_predicate fn [PyGraph graph] = Raise IndexError) as Hcall
    by reflexivity.
  split; [exact Hcall|]. rewrite Hcall. discriminate.
Qed.

(** ** Variants *)

Lemma variant_ok_decides (v : value) (kind : string) :
  variant_ok v = true →
  ∃ b, (k <~ getitem v KIND ;; Ok (py_eq_str k kind)) = Ok b
       ∧ (b = true ↔ ∃ r, v = VDict r ∧ r !! KIND = Some (VStr kind)).
Proof.
  destruct v as [| | |r]; try discriminate. simpl.
  unfold dict_contains, dict_getitem. intros Hk.
  apply bool_decide_eq_true_1 in Hk as [k Hk]. rewrite Hk. simpl.
  eexists. split; [reflexivity|]. split.
  - intros Heq. exists r. split; [reflexivity|].
    destruct k; simpl in Heq; try discriminate.
    apply bool_decide_eq_true_1 in Heq. by subst.
  - intros (r' & [= <-] & Hr'). rewrite Hk in Hr'. injection Hr' as ->.
    simpl. by apply bool_decide_eq_true_2.
Qed.

Lemma _node_has_variant_absent data (kind : string) :
  data !! VARIANTS = None → _node_has_variant data kind = Ok false.
Proof.
  intros Hv. unfold _node_has_variant, dict_contains. rewrite Hv.
  rewrite bool_decide_eq_false_2 by (intros [? ?]; discriminate). reflexivity.
Qed.

Lemma _node_has_variant_decides data (kind : string) :
  variants_ok data = true →
  ∃ b, _node_has_variant data kind = Ok b
       ∧ (b = true ↔ has_variant_of_kind data kind).
Proof.
  unfold variants_ok. destruct (data !! VARIANTS) as [v|] eqn:Hv.
  - destruct v as [| |l|]; try discriminate. intros Hl.
    unfold _node_has_variant, dict_contains, dict_getitem. rewrite Hv.
    rewrite bool_decide_eq_true_2 by eauto. simpl.
    destruct (any_decides
                (fun variant_dict =>
                   k <~ getitem variant_dict KIND ;; Ok (py_eq_str k kind))
                (fun v => ∃ r, v = VDict r ∧ r !! KIND = Some (VStr kind)) l)
      as (b & -> & Hb).
    { apply Forall_forall. intros v Hin. apply variant_ok_decides.
      rewrite forallb_forall in Hl. by apply Hl, list_elem_of_In. }
    exists b. split; [reflexivity|]. rewrite Hb. unfold has_variant_of_kind. split.
    + intros (v & Hin & r & -> & Hr). exists l, r. by rewrite Hv.
    + intros (l' & r & Hl' & Hin & Hr). rewrite Hv in Hl'. injection Hl' as <-.
      exists (VDict r). eauto.
  - intros _. exists false. split; [by apply _node_has_variant_absent|].
    split; [discriminate|]. intros (l & r & Hl & _). rewrite Hv in Hl. discriminate.
Qed.

(** C5. [has_variant] is true of a data dictionary exactly when it has
    the key [VARIANTS]. Each of [has_protein_modification],
    [has_gene_modification], [has_hgvs] and [has_fragment] returns false,
    and does not raise, when the key is not there; and on a dictionary
    whose variants are a list of variant records, it returns, and returns
    true exactly when one of the records is of the kind it looks for. *)
Theorem variant_predicates_correct data :
  (∃ b, has_variant (NodeRef := NodeRef) [PyValue (VDict data)] = Ok b
        ∧ (b = true ↔ is_Some (data !! VARIANTS)))
  ∧ Forall (fun pk : (list (pyobj NodeRef) → result bool) * string =>
              (data !! VARIANTS = None → pk.1 [PyValue (VDict data)] = Ok false)
              ∧ (variants_ok data = true →
                 ∃ b, pk.1 [PyValue (VDict data)] = Ok b
                      ∧ (b = true ↔ has_variant_of_kind data pk.2)))
           variant_predicates.
Proof.
  split.
  - exists (dict_contains VARIANTS data). split; [reflexivity|].
    unfold dict_contains. apply bool_decide_eq_true.
  - unfold variant_predicates, has_protein_modification, has_gene_modification,
      has_hgvs, has_fragment.
    repeat constructor; simpl;
      solve [ by apply _node_has_variant_absent
            | by apply _node_has_variant_decides ].
Qed.

End Adapter.

(** ** The builder of exclusion filters *)

Section ExclusionFilter.

Context {NodeRef : Type} `{Countable NodeRef}.

Variable node_to_tuple : dict → NodeRef.

Implicit Types (graph : BELGraph NodeRef) (n : NodeRef) (data : dict)
  (nodes : list (node_arg NodeRef)).

Lemma elem_of_exclusion_set nodes n :
  n ∈ exclusion_set node_to_tuple nodes
  ↔ ∃ a, a ∈ nodes ∧ canonical node_to_tuple a = n.
Proof.
  unfold exclusion_set. rewrite elem_of_list_to_set, list_elem_of_fmap.
  split; intros (a & Ha & Hn); exists a; auto.
Qed.

(** The filter on a data dictionary: whether its node tuple is out of
    the set. *)
Lemma node_exclusion_filter_data nodes data :
  node_exclusion_filter_builder node_to_tuple nodes [PyValue (VDict data)]
  = Ok (bool_decide (node_to_tuple data ∉ exclusion_set node_to_tuple nodes)).
Proof. reflexivity. Qed.

(** The filter only depends on the node tuples of its arguments. *)
Lemma node_exclusion_filter_canonical nodes nodes' args :
  canonical node_to_tuple <$> nodes = canonical node_to_tuple <$> nodes' →
  node_exclusion_filter_builder node_to_tuple nodes args
  = node_exclusion_filter_builder node_to_tuple nodes' args.
Proof.
  intros Heq. unfold node_exclusion_filter_builder, exclusion_set.
  rewrite Heq. reflexivity.
Qed.

(** The node tuples of the set: those of the data dictionaries of the
    sequence, and the node tuples of the sequence. *)
Lemma elem_of_exclusion_set_cases nodes n :
  n ∈ exclusion_set node_to_tuple nodes
  ↔ (∃ x, ArgData x ∈ nodes ∧ node_to_tuple x = n) ∨ ArgTuple n ∈ nodes.
Proof.
  rewrite elem_of_exclusion_set. split.
  - intros ([x|m] & Ha & Hn); simpl in Hn; [left; eauto | right; by subst].
  - intros [(x & Hx & Hn)|Hn]; [by exists (ArgData x) | by exists (ArgTuple n)].
Qed.

(** C3. The filter built from a sequence of nodes returns, on a data
    dictionary, false exactly when the sequence has a data dictionary
    with the same node tuple or has that node tuple itself, and true
    otherwise; on a graph and one of its nodes it does so for the data
    of the node. So the filter built from one node is false of that
    node, given as its data or looked up in a graph, whether the filter
    was built from the data or from the node tuple, and it is true of
    every node with another node tuple. The filter built from the empty
    sequence is true of every node. The filter is the same whether a
    node of the sequence is given as its data dictionary or as its node
    tuple. *)
Theorem node_exclusion_filter_builder_correct nodes :
  (∀ data,
     ∃ b, node_exclusion_filter_builder node_to_tuple nodes [PyValue (VDict data)]
          = Ok b
          ∧ (b = false
             ↔ (∃ x, ArgData x ∈ nodes ∧ node_to_tuple x = node_to_tuple data)
               ∨ ArgTuple (node_to_tuple data) ∈ nodes))
  ∧ (∀ graph n data,
       node graph !! n = Some data →
       ∃ b, node_exclusion_filter_builder node_to_tuple nodes
              [PyGraph graph; PyNode n] = Ok b
            ∧ (b = false
               ↔ (∃ x, ArgData x ∈ nodes ∧ node_to_tuple x = node_to_tuple data)
                 ∨ ArgTuple (node_to_tuple data) ∈ nodes))
  ∧ (∀ x,
       node_exclusion_filter_builder node_to_tuple [ArgData x]
         [PyValue (VDict x)] = Ok false
       ∧ node_exclusion_filter_builder node_to_tuple [ArgTuple (node_to_tuple x)]
           [PyValue (VDict x)] = Ok false)
  ∧ (∀ graph n x,
       node graph !! n = Some x →
       node_exclusion_filter_builder node_to_tuple [ArgData x]
         [PyGraph graph; PyNode n] = Ok false
       ∧ node_exclusion_filter_builder node_to_tuple [ArgTuple (node_to_tuple x)]
           [PyGraph graph; PyNode n] = Ok false)
  ∧ (∀ x y,
       node_to_tuple y ≠ node_to_tuple x →
       node_exclusion_filter_builder node_to_tuple [ArgData x]
         [PyValue (VDict y)] = Ok true
       ∧ node_exclusion_filter_builder node_to_tuple [ArgTuple (node_to_tuple x)]
           [PyValue (VDict y)] = Ok true)
  ∧ (∀ data,
       node_exclusion_filter_builder node_to_tuple [] [PyValue (VDict data)]
       = Ok true)
  ∧ (∀ graph n,
       is_Some (node graph !! n) →
       node_exclusion_filter_builder node_to_tuple [] [PyGraph graph; PyNode n]
       = Ok true)
  ∧ (∀ pre post data args,
       node_exclusion_filter_builder node_to_tuple
         (pre ++ ArgData data :: post) args
       = node_exclusion_filter_builder node_to_tuple
           (pre ++ ArgTuple (node_to_tuple data) :: post) args).
Proof.
  assert (∀ nodes0 data,
            ∃ b, node_exclusion_filter_builder node_to_tuple nodes0
                   [PyValue (VDict data)] = Ok b
                 ∧ (b = false
                    ↔ (∃ x, ArgData x ∈ nodes0
                            ∧ node_to_tuple x = node_to_tuple data)
                      ∨ ArgTuple (node_to_tuple data) ∈ nodes0)) as Hdata.
  { intros nodes0 data. rewrite node_exclusion_filter_data.
    eexists. split; [reflexivity|].
    rewrite bool_decide_eq_false, <- elem_of_exclusion_set_cases.
    split; [apply dec_stable | auto]. }
  assert (∀ nodes0 graph n data,
            node graph !! n = Some data →
            node_exclusion_filter_builder node_to_tuple nodes0
              [PyGraph graph; PyNode n]
            = node_exclusion_filter_builder node_to_tuple nodes0
                [PyValue (VDict data)]) as Hgraph.
  { intros nodes0 graph n data Hn. unfold node_exclusion_filter_builder.
    rewrite (node_predicate_graph _ graph n data [] Hn). reflexivity. }
  assert (∀ nodes0 data,
            ((∃ x, ArgData x ∈ nodes0 ∧ node_to_tuple x = node_to_tuple data)
             ∨ ArgTuple (node_to_tuple data) ∈ nodes0) →
            node_exclusion_filter_builder node_to_tuple nodes0
              [PyValue (VDict data)] = Ok false) as Hfalse.
  { intros nodes0 data Hin. destruct (Hdata nodes0 data) as (b & -> & Hb).
    f_equal. by apply Hb. }
  assert (∀ nodes0 data,
            ¬ ((∃ x, ArgData x ∈ nodes0 ∧ node_to_tuple x = node_to_tuple data)
               ∨ ArgTuple (node_to_tuple data) ∈ nodes0) →
            node_exclusion_filter_builder node_to_tuple nodes0
              [PyValue (VDict data)] = Ok true) as Htrue.
  { intros nodes0 data Hout. destruct (Hdata nodes0 data) as (b & -> & Hb).
    f_equal. destruct b; [reflexivity|]. exfalso. by apply Hout, Hb. }
  assert (∀ x, node_exclusion_filter_builder node_to_tuple [ArgData x]
                 [PyValue (VDict x)] = Ok false
               ∧ node_exclusion_filter_builder node_to_tuple
                   [ArgTuple (node_to_tuple x)] [PyValue (VDict x)] = Ok false)
    as Hself.
  { intros x. split; apply Hfalse.
    - left. exists x. split; [apply list_elem_of_here | reflexivity].
    - right. apply list_elem_of_here. }
  assert (∀ data, node_exclusion_filter_builder node_to_tuple []
                    [PyValue (VDict data)] = Ok true) as Hempty.
  { intros data. apply Htrue.
    intros [(x & Hx & _)|Hx]; by apply elem_of_nil in Hx. }
  split; [|split; [|split; [|split; [|split; [|split; [|split]]]]]].
  - apply Hdata.
  - intros graph n data Hn. rewrite (Hgraph nodes graph n data Hn). apply Hdata.
  - exact Hself.
  - intros graph n x Hn. rewrite !(Hgraph _ graph n x Hn). apply Hself.
  - intros x y Hne. split; apply Htrue.
    + intros [(z & Hz & Heq)|Hz].
      * apply list_elem_of_singleton in Hz. injection Hz as ->. by apply Hne.
      * apply list_elem_of_singleton in Hz. discriminate.
    + intros [(z & Hz & Heq)|Hz].
      * apply list_elem_of_singleton in Hz. discriminate.
      * apply list_elem_of_singleton in Hz. injection Hz as Heq. by apply Hne.
  - exact Hempty.
  - intros graph n [data Hn]. rewrite (Hgraph [] graph n data Hn). apply Hempty.
  - intros pre post data args. apply node_exclusion_filter_canonical.
    rewrite !fmap_app, !fmap_cons. reflexivity.
Qed.

End ExclusionFilter.

(** ** The properties on the graphs of the tests *)

Import Examples.

Local Ltac has_key := eexists; vm_compute; reflexivity.
Local Ltac has_record := eexists; split; vm_compute; reflexivity.

(** [test_p1_active]: the subject of the edge is active and the object is
    degraded, not the other way round. *)
Lemma node_has_modifier_correct_witness :
  has_activity p1_active (simple_node_to_tuple hsd11b1) = Ok true
  ∧ is_degraded p1_active (simple_node_to_tuple hsd11b1) = Ok false
  ∧ has_activity p1_active (simple_node_to_tuple cortisol) = Ok false
  ∧ is_degraded p1_active (simple_node_to_tuple cortisol) = Ok true.
Proof.
  apply (proj2 (proj2 (proj2 (proj2 (node_has_modifier_correct p1_active))))
           (simple_node_to_tuple hsd11b1) (simple_node_to_tuple cortisol)
           active_edge).
  - reflexivity.
  - discriminate.
  - has_key.
  - has_key.
  - has_record.
  - has_record.
Defined.

(** [test_p1_tuple_variants]: [is_protein] on the graph and the node
    tuple of [p1] is [is_protein] on [p1]. *)
Lemma node_predicate_graph_form_agrees_witness :
  node (one_edge p1 cortisol active_edge) !! simple_node_to_tuple p1 = Some p1
  ∧ node_getitem (one_edge p1 cortisol active_edge)
      (PyNode (simple_node_to_tuple p1)) = Ok p1
  ∧ is_protein [PyGraph (one_edge p1 cortisol active_edge);
                PyNode (simple_node_to_tuple p1)]
    = is_protein (NodeRef := node_tuple) [PyValue (VDict p1)]
  ∧ is_protein [PyGraph (one_edge p1 cortisol active_edge);
                PyNode (simple_node_to_tuple p1)]
    = is_protein (NodeRef := node_tuple) [PyValue (VDict p1)].
Proof.
  assert (node (one_edge p1 cortisol active_edge) !! simple_node_to_tuple p1
          = Some p1) as Hn by (vm_compute; reflexivity).
  split; [exact Hn|].
  exact (node_predicate_graph_form_agrees (unary is_protein_body)
           (one_edge p1 cortisol active_edge) (simple_node_to_tuple p1) p1 [] Hn).
Defined.

(** [test_node_exclusion_data] and [test_node_exclusion_tuples]: the
    filter built from [hsd11b1] is false of it, given as its data or
    looked up in the graph, and true of [cortisol]. *)
Lemma node_exclusion_filter_builder_correct_witness :
  node_exclusion_filter_builder simple_node_to_tuple [ArgData hsd11b1]
    [PyValue (VDict hsd11b1)] = Ok false
  ∧ node_exclusion_filter_builder simple_node_to_tuple [ArgData hsd11b1]
      [PyGraph p1_active; PyNode (simple_node_to_tuple hsd11b1)] = Ok false
  ∧ node_exclusion_filter_builder simple_node_to_tuple [ArgData hsd11b1]
      [PyValue (VDict cortisol)] = Ok true.
Proof.
  destruct (node_exclusion_filter_builder_correct simple_node_to_tuple
              [ArgData hsd11b1])
    as (_ & _ & Hself & Hgraph & Hother & _).
  split; [exact (proj1 (Hself hsd11b1))|]. split.
  - refine (proj1 (Hgraph p1_active (simple_node_to_tuple hsd11b1) hsd11b1 _)).
    vm_compute. reflexivity.
  - refine (proj1 (Hother hsd11b1 cortisol _)). discriminate.
Defined.

(** A node tuple, or [None], in the place of the data dictionary. *)
Lemma node_predicate_invalid_argument_witness :
  is_protein [PyNode (simple_node_to_tuple p1)] = Raise ValueError
  ∧ is_protein (NodeRef := node_tuple) [PyValue VNone] = Raise ValueError.
Proof.
  split.
  - apply (proj2 (node_predicate_invalid_argument (unary is_protein_body)));
      reflexivity.
  - apply (proj2 (node_predicate_invalid_argument (unary is_protein_body)));
      reflexivity.
Defined.

(** [test_p2_data_variants]: [p2] has a protein modification. *)
Lemma variant_predicates_correct_witness :
  variants_ok p2 = true
  ∧ ∃ b, has_protein_modification (NodeRef := node_tuple) [PyValue (VDict p2)] = Ok b
         ∧ (b = true ↔ has_variant_of_kind p2 PMOD).
Proof.
  split; [vm_compute; reflexivity|].
  pose proof (proj2 (variant_predicates_correct (NodeRef := node_tuple) p2)) as Hall.
  apply Forall_inv in Hall. apply (proj2 Hall). vm_compute. reflexivity.
Defined.

(** [test_object_has_secretion]: the edge is causal. *)
Lemma has_causal_edges_correct_witness :
  has_causal_out_edges object_has_secretion (simple_node_to_tuple il4) = Ok true
  ∧ has_causal_in_edges object_has_secretion (simple_node_to_tuple il4) = Ok false
  ∧ has_causal_in_edges object_has_secretion (simple_node_to_tuple cxcl1) = Ok true
  ∧ has_causal_out_edges object_has_secretion (simple_node_to_tuple cxcl1) = Ok false.
Proof.
  apply (proj2 (has_causal_edges_correct object_has_secretion)
           (simple_node_to_tuple il4) (simple_node_to_tuple cxcl1) secretion_edge).
  - reflexivity.
  - discriminate.
  - has_key.
  - has_key.
  - exists INCREASES. split; [vm_compute; reflexivity|].
    unfold CAUSAL_RELATIONS. set_solver.
Defined.

(** [test_object_has_secretion]: the object of the edge is translocated. *)
Lemma is_translocated_object_witness :
  secretion_edge !! OBJECT = Some secretion
  ∧ is_translocated object_has_secretion (simple_node_to_tuple cxcl1) = Ok true.
Proof.
  assert (secretion_edge !! OBJECT = Some secretion) as Hd
    by (vm_compute; reflexivity).
  split; [exact Hd|].
  refine (proj2 (proj2 (is_translocated_object object_has_secretion
                          (simple_node_to_tuple il4) (simple_node_to_tuple cxcl1)
                          secretion_edge _ _ _)) Hd).
  - vm_compute. reflexivity.
  - has_key.
  - apply list_elem_of_here.
Defined.

(** A node that is not in the graph of [test_p1_active]. *)
Lemma scan_of_absent_node_witness :
  node p1_active !! simple_node_to_tuple p1 = None
  ∧ has_activity p1_active (simple_node_to_tuple p1) = Raise NodeNotFound
  ∧ has_causal_out_edges p1_active (simple_node_to_tuple p1) = Raise NodeNotFound.
Proof.
  assert (node p1_active !! simple_node_to_tuple p1 = None) as Hn
    by (vm_compute; reflexivity).
  split; [exact Hn|].
  destruct (proj2 (proj2 (scan_of_absent_node p1_active (simple_node_to_tuple p1))) Hn)
    as [Hscan Hall].
  split; [exact (Hscan ACTIVITY)|].
  revert Hall. unfold edge_predicates. rewrite !Forall_cons. tauto.
Defined.

(** An edge whose object only has a location, followed by an edge
    whose object is degraded: the scan goes past the first and finds the
    second, and the object is degraded and not active. *)
Lemma node_has_modifier_skips_records_without_modifier_witness :
  lacks_modifier OBJECT located_edge
  ∧ is_degraded MoreExamples.located_then_degraded (simple_node_to_tuple cxcl1)
    = Ok true
  ∧ has_activity MoreExamples.located_then_degraded (simple_node_to_tuple cxcl1)
    = Ok false.
Proof.
  assert (lacks_modifier OBJECT located_edge) as Hlacks by has_record.
  split; [exact Hlacks|].
  destruct (node_has_modifier_skips_records_without_modifier
              (node (one_edge il4 cxcl1 located_edge)) []
              [(simple_node_to_tuple il4, simple_node_to_tuple cxcl1,
                MoreExamples.degraded_edge)]
              (simple_node_to_tuple il4) (simple_node_to_tuple cxcl1)
              located_edge OBJECT Hlacks)
    as (_ & _ & Hdecides & Hlater & _).
  split.
  - refine (Hlater (simple_node_to_tuple cxcl1) DEGRADATION
              [(simple_node_to_tuple il4, simple_node_to_tuple cxcl1, located_edge)]
              (simple_node_to_tuple il4, simple_node_to_tuple cxcl1,
               MoreExamples.degraded_edge) [] _ _ _).
    + vm_compute. reflexivity.
    + constructor; [by right | constructor].
    + has_record.
  - destruct (Hdecides ltac:(vm_compute; reflexivity)
                (simple_node_to_tuple cxcl1) ACTIVITY ltac:(has_key))
      as (b & Hb & Hspec).
    assert (b = false) as ->; [|exact Hb].
    destruct b; [|reflexivity]. exfalso.
    destruct (proj1 Hspec eq_refl) as [(e & [He _] & Hc)|(e & [He Hsrc] & _)];
      simpl in He; rewrite !elem_of_cons, elem_of_nil in He;
      destruct He as [->|[->|[]]].
    + destruct Hc as (q & Hq & _). vm_compute in Hq. discriminate.
    + destruct Hc as (q & Hq & Hm). vm_compute in Hq. injection Hq as <-.
      vm_compute in Hm. discriminate.
    + vm_compute in Hsrc. discriminate.
    + vm_compute in Hsrc. discriminate.
Defined.

(** * Further properties of the predicates *)

(** ** Calls of a decorated function of one parameter *)

Section Calls.

Context {NodeRef : Type} `{Countable NodeRef}.

Implicit Types (graph : BELGraph NodeRef) (n : NodeRef) (fn : pyfun NodeRef)
  (data : dict) (x k : pyobj NodeRef) (args extra rest : list (pyobj NodeRef)).

(** A call of a decorated function of one parameter that returns has
    found one data dictionary, on which every other decorated function
    of one parameter is called by the same arguments. *)
Lemma node_predicate_unary_inv (body : dict → result bool) args (b : bool) :
  node_predicate (unary body) args = Ok b →
  ∃ data, body data = Ok b
          ∧ ∀ body' : dict → result bool,
              node_predicate (unary body') args = body' data.
Proof.
  destruct args as [|x rest]; [discriminate|].
  destruct x as [graph|n|v]; simpl; [|discriminate|].
  - destruct rest as [|k extra]; [discriminate|].
    destruct (node_getitem graph k) as [data|err]; [simpl|discriminate].
    destruct extra; [|discriminate]. intros Hbody. exists data. auto.
  - destruct v as [| | |data]; try discriminate.
    destruct rest; [|discriminate]. intros Hbody. exists data. auto.
Qed.

(** A call of a decorated function of one parameter that raises before
    the body runs raises the same error for every body. *)
Lemma node_predicate_unary_dispatch (body body' : dict → result bool) args :
  (∃ data, node_predicate (unary body) args = body data
           ∧ node_predicate (unary body') args = body' data)
  ∨ (∃ err, node_predicate (unary body) args = Raise err
            ∧ node_predicate (unary body') args = Raise err).
Proof.
  destruct args as [|x rest]; [right; by exists ValueError|].
  destruct x as [graph|n|v]; simpl.
  - destruct rest as [|k extra]; [right; by exists IndexError|].
    destruct (node_getitem graph k) as [data|err]; simpl.
    + destruct extra; [left; by exists data | right; by exists TypeError].
    + right. by exists err.
  - right. by exists ValueError.
  - destruct v as [| | |data]; try (right; by exists ValueError).
    destruct rest; [left; by exists data | right; by exists TypeError].
Qed.

(** X1. On a data dictionary that has a function, each of
    [is_abundance], [is_gene], [is_protein] and [is_pathology] returns
    whether the function is its own token, so that at most one of the
    four is true; the same holds on a graph and a node whose data has a
    function. *)
Theorem function_predicates_exclusive data (v : value) args :
  data !! FUNCTION = Some v →
  (args = [PyValue (VDict data)]
   ∨ ∃ graph n, node graph !! n = Some data ∧ args = [PyGraph graph; PyNode n]) →
  ∃ a g p y,
    is_abundance args = Ok a ∧ is_gene args = Ok g
    ∧ is_protein args = Ok p ∧ is_pathology args = Ok y
    ∧ (a = true ↔ v = VStr ABUNDANCE) ∧ (g = true ↔ v = VStr GENE)
    ∧ (p = true ↔ v = VStr PROTEIN) ∧ (y = true ↔ v = VStr PATHOLOGY)
    ∧ (length (filter (fun b => b = true) [a; g; p; y]) ≤ 1)%nat.
Proof.
  intros Hv Hargs.
  assert (∀ body : dict → result bool,
            node_predicate (unary body) args = body data) as Hcall.
  { intros body. destruct Hargs as [->|(graph & n & Hn & ->)]; [reflexivity|].
    simpl. by rewrite Hn. }
  assert (∀ token, py_eq_str v token = true ↔ v = VStr token) as Heq.
  { intros token. destruct v as [|s| |]; simpl; try (split; discriminate).
    rewrite bool_decide_eq_true. split; [by intros -> | by intros [= ->]]. }
  exists (py_eq_str v ABUNDANCE), (py_eq_str v GENE),
    (py_eq_str v PROTEIN), (py_eq_str v PATHOLOGY).
  unfold is_abundance, is_gene, is_protein, is_pathology. rewrite !Hcall.
  unfold is_abundance_body, is_gene_body, is_protein_body, is_pathology_body,
    dict_getitem. rewrite Hv. simpl.
  repeat (split; [first [reflexivity | apply Heq]|]).
  destruct v as [|s| |]; simpl; try lia.
  repeat case_bool_decide; subst; try discriminate; simpl; lia.
Qed.

(** X2. [not_pathology] is the negation of [is_pathology] on every
    call: the two raise the same error on the same arguments, and when
    one returns a boolean the other returns its negation. *)
Theorem not_pathology_negates_is_pathology args :
  not_pathology args = (b <~ is_pathology args ;; Ok (negb b)).
Proof.
  unfold not_pathology, is_pathology.
  destruct (node_predicate_unary_dispatch not_pathology_body is_pathology_body args)
    as [(data & -> & ->)|(err & -> & ->)]; [|reflexivity].
  unfold not_pathology_body, is_pathology_body.
  destruct (dict_getitem data FUNCTION); reflexivity.
Qed.

(** X3. On a data dictionary without the key [FUNCTION], each of the
    five predicates on the function raises [KeyError], called on the
    dictionary or on a graph and a node with that data. *)
Theorem function_predicates_missing_key data :
  data !! FUNCTION = None →
  Forall (fun p =>
            p [PyValue (VDict data)] = Raise KeyError
            ∧ ∀ graph n, node graph !! n = Some data →
                p [PyGraph graph; PyNode n] = Raise KeyError)
         function_predicates.
Proof.
  intros Hf.
  assert (dict_getitem data FUNCTION = Raise KeyError) as Hget
    by (unfold dict_getitem; by rewrite Hf).
  unfold function_predicates, is_abundance, is_gene, is_protein, is_pathology,
    not_pathology.
  repeat constructor; try (intros graph n Hn; simpl; rewrite Hn); simpl;
    unfold is_abundance_body, is_gene_body, is_protein_body, is_pathology_body,
      not_pathology_body; by rewrite Hget.
Qed.

(** X4. In the form on a graph, a decorated function fails before its
    body runs, and with the same error whatever the body, when the node
    is not in the graph ([NodeNotFound]) or when the second argument is
    a dictionary or a list, which cannot be a key ([TypeError]). A
    decorated function of one parameter called with one more argument
    raises [TypeError], in the form on a data dictionary and in the form
    on a graph and one of its nodes. *)
Theorem node_predicate_call_errors fn graph extra :
  (∀ n, node graph !! n = None →
     node_predicate fn (PyGraph graph :: PyNode n :: extra) = Raise NodeNotFound)
  ∧ (∀ v, is_dict v = true ∨ (∃ l, v = VList l) →
       node_predicate fn (PyGraph graph :: PyValue v :: extra) = Raise TypeError)
  ∧ (∀ (body : dict → result bool) data x,
       node_predicate (unary body) (PyValue (VDict data) :: x :: extra)
       = Raise TypeError)
  ∧ (∀ (body : dict → result bool) n x,
       is_Some (node graph !! n) →
       node_predicate (unary body) (PyGraph graph :: PyNode n :: x :: extra)
       = Raise TypeError).
Proof.
  split; [|split; [|split]].
  - intros n Hn. simpl. by rewrite Hn.
  - intros v [Hv|[l ->]]; [|reflexivity]. by destruct v.
  - reflexivity.
  - intros body n x [data Hn]. simpl. by rewrite Hn.
Qed.

(** ** Variants *)

Lemma _node_has_variant_true_has_key data (kind : string) :
  _node_has_variant data kind = Ok true → dict_contains VARIANTS data = true.
Proof.
  unfold _node_has_variant. by destruct (dict_contains VARIANTS data).
Qed.

(** X5. Whatever the arguments of the call, when one of
    [has_protein_modification], [has_gene_modification], [has_hgvs] and
    [has_fragment] returns true, [has_variant] returns true on the same
    arguments. The converse fails on an empty list of variants:
    [has_variant] is true of it, and the four are false. *)
Theorem kind_predicates_imply_has_variant :
  Forall (fun pk : (list (pyobj NodeRef) → result bool) * string =>
            ∀ args, pk.1 args = Ok true → has_variant args = Ok true)
         variant_predicates
  ∧ (∀ data,
       data !! VARIANTS = Some (VList []) →
       has_variant (NodeRef := NodeRef) [PyValue (VDict data)] = Ok true
       ∧ Forall (fun pk : (list (pyobj NodeRef) → result bool) * string =>
                   pk.1 [PyValue (VDict data)] = Ok false)
                variant_predicates).
Proof.
  assert (∀ kind args,
            node_predicate (unary (fun data => _node_has_variant data kind)) args
            = Ok true →
            has_variant args = Ok true) as Himp.
  { intros kind args Hcall.
    apply node_predicate_unary_inv in Hcall as (data & Hbody & Hsame).
    unfold has_variant. rewrite Hsame. unfold has_variant_body.
    by rewrite (_node_has_variant_true_has_key data kind Hbody). }
  split.
  - unfold variant_predicates. repeat constructor; simpl; apply Himp.
  - intros data Hv.
    assert (∀ kind, _node_has_variant data kind = Ok false) as Hnone.
    { intros kind. unfold _node_has_variant, dict_contains, dict_getitem.
      rewrite Hv. by rewrite bool_decide_eq_true_2 by eauto. }
    split.
    + simpl. unfold has_variant_body, dict_contains. rewrite Hv.
      by rewrite bool_decide_eq_true_2 by eauto.
    + unfold variant_predicates. repeat constructor; simpl; apply Hnone.
Qed.

(** After elements on which the test is false, a loop goes on with the
    next element. *)
Lemma any_first {A : Type} (f : A → result bool) (pre post : list A) (x : A) :
  Forall (fun y => f y = Ok false) pre →
  any f (pre ++ x :: post) = (b <~ f x ;; if b then Ok true else any f post).
Proof.
  induction 1 as [|y pre Hy _ IH]; simpl; [reflexivity|].
  rewrite Hy. simpl. exact IH.
Qed.

(** X6. [_node_has_variant] reads the variants in order and stops at the
    first record that decides: after records of other kinds, a record of
    the kind looked for gives true whatever follows it, a record
    without the key [KIND] raises [KeyError], and an element that is not
    a dictionary raises [TypeError]. Variants that are [None] raise
    [TypeError]. *)
Theorem node_has_variant_first_decides data (kind : string)
    (pre post : list value) (v : value) :
  data !! VARIANTS = Some (VList (pre ++ v :: post)) →
  Forall (fun w => ∃ r (kd : value),
              w = VDict r ∧ r !! KIND = Some kd ∧ kd ≠ VStr kind) pre →
  (∀ r, v = VDict r → r !! KIND = Some (VStr kind) →
     _node_has_variant data kind = Ok true)
  ∧ (∀ r, v = VDict r → r !! KIND = None →
       _node_has_variant data kind = Raise KeyError)
  ∧ (is_dict v = false → _node_has_variant data kind = Raise TypeError)
  ∧ (∀ data', data' !! VARIANTS = Some VNone →
       _node_has_variant data' kind = Raise TypeError).
Proof.
  intros Hv Hpre.
  assert (_node_has_variant data kind
          = (b <~ (kd <~ getitem v KIND ;; Ok (py_eq_str kd kind)) ;;
             if b then Ok true
             else any (fun variant_dict =>
                         kd <~ getitem variant_dict KIND ;; Ok (py_eq_str kd kind))
                      post)) as Hscan.
  { unfold _node_has_variant, dict_contains, dict_getitem. rewrite Hv.
    rewrite bool_decide_eq_true_2 by eauto. simpl.
    apply (any_first (fun variant_dict =>
                        kd <~ getitem variant_dict KIND ;; Ok (py_eq_str kd kind))).
    eapply Forall_impl; [exact Hpre|]. simpl.
    intros w (r & kd & -> & Hk & Hne). simpl. unfold dict_getitem. rewrite Hk. simpl.
    f_equal. destruct kd as [|s| |]; simpl; try reflexivity.
    apply bool_decide_eq_false_2. congruence. }
  split; [|split; [|split]].
  - intros r -> Hk. rewrite Hscan. simpl. unfold dict_getitem. rewrite Hk. simpl.
    by rewrite bool_decide_eq_true_2.
  - intros r -> Hk. rewrite Hscan. simpl. unfold dict_getitem. by rewrite Hk.
  - intros Hnd. rewrite Hscan. by destruct v.
  - intros data' Hv'. unfold _node_has_variant, dict_contains, dict_getitem.
    rewrite Hv'. by rewrite bool_decide_eq_true_2 by eauto.
Qed.

End Calls.

(** ** The edges of a node *)

Section Edges.

Context {NodeRef : Type} `{Countable NodeRef}.

Implicit Types (graph : BELGraph NodeRef) (n u v : NodeRef) (e : edge NodeRef)
  (nodes : gmap NodeRef dict) (es : list (edge NodeRef)) (d : dict).

Lemma qualifiers_ok_Forall graph :
  qualifiers_ok graph = true
  ↔ Forall (fun e => qualifier_ok SUBJECT (edge_data e) = true
                     ∧ qualifier_ok OBJECT (edge_data e) = true) (edges graph).
Proof.
  unfold qualifiers_ok. rewrite forallb_forall, Forall_forall.
  split; intros Hall e He.
  - apply andb_true_iff, Hall. by apply list_elem_of_In.
  - apply andb_true_iff, Hall. by apply list_elem_of_In.
Qed.

Lemma has_modifier_spec_mono nodes es es' n (modifier : string) :
  (∀ e, e ∈ es → e ∈ es') →
  has_modifier_spec (graph_of nodes es) n modifier →
  has_modifier_spec (graph_of nodes es') n modifier.
Proof.
  intros Hsub [(e & [He Hn] & Hc)|(e & [He Hn] & Hc)]; [left|right];
    exists e; (split; [split; [by apply Hsub | exact Hn] | exact Hc]).
Qed.

Lemma has_modifier_spec_app nodes es1 es2 n (modifier : string) :
  has_modifier_spec (graph_of nodes (es1 ++ es2)) n modifier
  ↔ has_modifier_spec (graph_of nodes es1) n modifier
    ∨ has_modifier_spec (graph_of nodes es2) n modifier.
Proof.
  split.
  - intros [(e & [He Hn] & Hc)|(e & [He Hn] & Hc)]; simpl in He;
      apply elem_of_app in He as [He|He];
      [left; left | right; left | left; right | right; right];
      exists e; (split; [split; [exact He | exact Hn] | exact Hc]).
  - intros [Hs|Hs]; revert Hs; apply has_modifier_spec_mono;
      intros e He; apply elem_of_app; auto.
Qed.

(** Two booleans that are true for equivalent reasons are equal. *)
Lemma bool_eq_of_iff (b b' : bool) (P P' : Prop) :
  (b = true ↔ P) → (b' = true ↔ P') → (P ↔ P') → b = b'.
Proof. intros Hb Hb' HP. apply eq_true_iff_eq. by rewrite Hb, Hb'. Qed.

(** X7. For a node of the graph, and two sequences of edges whose
    records under [SUBJECT] and [OBJECT] are dictionaries, the scan of
    the graph that has the edges of both returns the disjunction of the
    scans of the graphs that have the edges of each. *)
Theorem node_has_modifier_app nodes es1 es2 n (modifier : string) :
  qualifiers_ok (graph_of nodes es1) = true →
  qualifiers_ok (graph_of nodes es2) = true →
  is_Some (nodes !! n) →
  ∃ b1 b2,
    _node_has_modifier (graph_of nodes es1) n modifier = Ok b1
    ∧ _node_has_modifier (graph_of nodes es2) n modifier = Ok b2
    ∧ _node_has_modifier (graph_of nodes (es1 ++ es2)) n modifier
      = Ok (b1 || b2).
Proof.
  intros Hwf1 Hwf2 Hn.
  assert (qualifiers_ok (graph_of nodes (es1 ++ es2)) = true) as Hwf.
  { apply qualifiers_ok_Forall. simpl. apply Forall_app. split.
    - by apply (qualifiers_ok_Forall (graph_of nodes es1)).
    - by apply (qualifiers_ok_Forall (graph_of nodes es2)). }
  destruct (node_has_modifier_decides (graph_of nodes es1) n modifier Hwf1 Hn)
    as (b1 & Hb1 & Hs1).
  destruct (node_has_modifier_decides (graph_of nodes es2) n modifier Hwf2 Hn)
    as (b2 & Hb2 & Hs2).
  destruct (node_has_modifier_decides (graph_of nodes (es1 ++ es2)) n modifier Hwf Hn)
    as (b & Hb & Hs).
  exists b1, b2. split; [exact Hb1|]. split; [exact Hb2|].
  rewrite Hb. f_equal.
  apply (bool_eq_of_iff b (b1 || b2) _
           (has_modifier_spec (graph_of nodes es1) n modifier
            ∨ has_modifier_spec (graph_of nodes es2) n modifier) Hs).
  - rewrite orb_true_iff, Hs1, Hs2. reflexivity.
  - apply has_modifier_spec_app.
Qed.

(** X8. On edges whose records under [SUBJECT] and [OBJECT] are
    dictionaries, the scan only depends on which edges the graph has:
    neither on their order nor on how many times each is there. *)
Theorem node_has_modifier_order_irrelevant nodes es es' n (modifier : string) :
  qualifiers_ok (graph_of nodes es) = true →
  (∀ e, e ∈ es ↔ e ∈ es') →
  _node_has_modifier (graph_of nodes es) n modifier
  = _node_has_modifier (graph_of nodes es') n modifier.
Proof.
  intros Hwf Hsame.
  assert (qualifiers_ok (graph_of nodes es') = true) as Hwf'.
  { apply qualifiers_ok_Forall. apply qualifiers_ok_Forall in Hwf. simpl in *.
    rewrite Forall_forall in *. intros e He. by apply Hwf, Hsame. }
  destruct (nodes !! n) as [dn|] eqn:Hn.
  - assert (is_Some (node (graph_of nodes es) !! n)) as Hsome by (simpl; eauto).
    destruct (node_has_modifier_decides (graph_of nodes es) n modifier Hwf Hsome)
      as (b & -> & Hs).
    destruct (node_has_modifier_decides (graph_of nodes es') n modifier Hwf' Hsome)
      as (b' & -> & Hs').
    f_equal. apply (bool_eq_of_iff b b' _ _ Hs Hs').
    split; apply has_modifier_spec_mono; intros e; apply Hsame.
  - unfold _node_has_modifier, in_edges_iter. simpl. by rewrite Hn.
Qed.

Lemma Forall2_fmap_self {A : Type} (R : A → A → Prop) (g : A → A) (l : list A) :
  (∀ x, R x (g x)) → Forall2 R l (g <$> l).
Proof. intros HR. induction l; constructor; auto. Qed.

Lemma any_filter_ext (test : edge NodeRef → result bool)
    (proj : edge NodeRef → NodeRef) n es es' :
  Forall2 (fun e e' => proj e = proj e' ∧ test e = test e') es es' →
  any test (filter (fun e => proj e = n) es)
  = any test (filter (fun e => proj e = n) es').
Proof.
  induction 1 as [|e e' l l' [Hproj Htest] _ IH]; [reflexivity|].
  rewrite !filter_cons, <- Hproj.
  destruct (decide (proj e = n)); simpl; [|exact IH].
  rewrite <- Htest, IH. reflexivity.
Qed.

(** The scan at a node of the graph: the two loops. *)
Lemma node_has_modifier_present graph n (modifier : string) :
  is_Some (node graph !! n) →
  _node_has_modifier graph n modifier
  = for_return_true (edge_has_modifier OBJECT modifier)
      (filter (fun e => edge_target e = n) (edges graph))
      (for_return_true (edge_has_modifier SUBJECT modifier)
         (filter (fun e => edge_source e = n) (edges graph)) (Ok false)).
Proof.
  intros [dn Hn]. unfold _node_has_modifier, in_edges_iter, out_edges_iter.
  rewrite Hn. reflexivity.
Qed.

Lemma has_causal_in_edges_present graph n :
  is_Some (node graph !! n) →
  has_causal_in_edges graph n
  = any edge_is_causal (filter (fun e => edge_target e = n) (edges graph)).
Proof.
  intros [dn Hn]. unfold has_causal_in_edges, in_edges_iter.
  rewrite Hn. reflexivity.
Qed.

Lemma has_causal_out_edges_present graph n :
  is_Some (node graph !! n) →
  has_causal_out_edges graph n
  = any edge_is_causal (filter (fun e => edge_source e = n) (edges graph)).
Proof.
  intros [dn Hn]. unfold has_causal_out_edges, out_edges_iter.
  rewrite Hn. reflexivity.
Qed.

(** The test of an edge only reads the record under its key. *)
Lemma edge_has_modifier_same_record (side modifier : string) d d' :
  d' !! side = d !! side →
  edge_has_modifier side modifier d' = edge_has_modifier side modifier d.
Proof.
  intros Hsame. unfold edge_has_modifier, dict_contains, dict_getitem.
  rewrite Hsame. reflexivity.
Qed.

(** X9. The scan for a modifier reads nothing of the data of an edge
    but the records under [SUBJECT] and [OBJECT], and the predicates on
    causal edges nothing but the relation: a change of the data of the
    edges that keeps these keeps the results, errors included. *)
Theorem edge_predicates_read_only_their_keys nodes es (f : dict → dict) n :
  ((∀ d, f d !! SUBJECT = d !! SUBJECT) → (∀ d, f d !! OBJECT = d !! OBJECT) →
   ∀ modifier,
     _node_has_modifier (graph_of nodes (with_edge_data f es)) n modifier
     = _node_has_modifier (graph_of nodes es) n modifier)
  ∧ ((∀ d, f d !! RELATION = d !! RELATION) →
     has_causal_in_edges (graph_of nodes (with_edge_data f es)) n
     = has_causal_in_edges (graph_of nodes es) n
     ∧ has_causal_out_edges (graph_of nodes (with_edge_data f es)) n
       = has_causal_out_edges (graph_of nodes es) n).
Proof.
  destruct (nodes !! n) as [dn|] eqn:Hn.
  - assert (∀ es0, is_Some (node (graph_of nodes es0) !! n)) as Hsome
      by (intros es0; simpl; eauto).
    split.
    + intros Hsubj Hobj modifier.
      rewrite !node_has_modifier_present by apply Hsome. simpl. symmetry.
      rewrite (for_return_true_filter_ext (edge_has_modifier SUBJECT modifier)
                 edge_source n es (with_edge_data f es) (Ok false)).
      * apply for_return_true_filter_ext, Forall2_fmap_self.
        intros e. split; [reflexivity|]. simpl. symmetry.
        apply edge_has_modifier_same_record, Hobj.
      * apply Forall2_fmap_self.
        intros e. split; [reflexivity|]. simpl. symmetry.
        apply edge_has_modifier_same_record, Hsubj.
    + intros Hrel.
      assert (∀ e, edge_is_causal e
                   = edge_is_causal (edge_source e, edge_target e, f (edge_data e)))
        as Htest.
      { intros e. unfold edge_is_causal, dict_getitem. simpl. by rewrite Hrel. }
      rewrite !has_causal_in_edges_present, !has_causal_out_edges_present
        by apply Hsome.
      simpl. split; symmetry; apply any_filter_ext, Forall2_fmap_self;
        intros e; (split; [reflexivity | apply Htest]).
  - split.
    + intros _ _ modifier.
      unfold _node_has_modifier, in_edges_iter. simpl. by rewrite Hn.
    + intros _. unfold has_causal_in_edges, has_causal_out_edges,
        in_edges_iter, out_edges_iter. simpl. by rewrite Hn.
Qed.

(** X10. An edge of the graph is seen from both of its ends: on a graph
    whose records under [SUBJECT] and [OBJECT] are dictionaries, a
    modifier on the subject of the edge is found by the scan of its
    source, and a modifier on its object by the scan of its target; on a
    graph whose edges hold a relation, a causal edge is a causal edge
    that leaves its source and one that arrives at its target. *)
Theorem edge_seen_from_both_ends graph u v d :
  (u, v, d) ∈ edges graph →
  is_Some (node graph !! u) → is_Some (node graph !! v) →
  (qualifiers_ok graph = true →
   ∀ modifier,
     (carries SUBJECT modifier d → _node_has_modifier graph u modifier = Ok true)
     ∧ (carries OBJECT modifier d → _node_has_modifier graph v modifier = Ok true))
  ∧ (relations_ok graph = true → causal d →
     has_causal_out_edges graph u = Ok true
     ∧ has_causal_in_edges graph v = Ok true).
Proof.
  intros He Hu Hv. split.
  - intros Hwf modifier. split; intros Hc.
    + apply (decides_true _ _ (node_has_modifier_decides graph u modifier Hwf Hu)).
      right. exists (u, v, d). split; [split; [exact He | reflexivity] | exact Hc].
    + apply (decides_true _ _ (node_has_modifier_decides graph v modifier Hwf Hv)).
      left. exists (u, v, d). split; [split; [exact He | reflexivity] | exact Hc].
  - intros Hwf Hc. split.
    + apply (decides_true _ _ (has_causal_out_edges_decides graph u Hwf Hu)).
      exists (u, v, d). split; [split; [exact He | reflexivity] | exact Hc].
    + apply (decides_true _ _ (has_causal_in_edges_decides graph v Hwf Hv)).
      exists (u, v, d). split; [split; [exact He | reflexivity] | exact Hc].
Qed.

Lemma edge_is_causal_true e : causal (edge_data e) → edge_is_causal e = Ok true.
Proof.
  intros (r & Hr & Hin). unfold edge_is_causal, dict_getitem. rewrite Hr. simpl.
  by rewrite bool_decide_eq_true_2.
Qed.

(** X11. The predicates on causal edges read the edges in order and
    stop at the first edge that decides: after edges that are not
    causal, a causal edge gives true whatever follows it, an edge
    without the key [RELATION] raises [KeyError], and an edge whose
    relation is [None] is passed over. *)
Theorem has_causal_edges_first_decides graph n (pre post : list (edge NodeRef)) e :
  Forall (fun e' => edge_is_causal e' = Ok false) pre →
  Forall (fun ip : (BELGraph NodeRef → NodeRef → result (list (edge NodeRef)))
                   * (BELGraph NodeRef → NodeRef → result bool) =>
            ip.1 graph n = Ok (pre ++ e :: post) →
            (causal (edge_data e) → ip.2 graph n = Ok true)
            ∧ (edge_data e !! RELATION = None → ip.2 graph n = Raise KeyError)
            ∧ (edge_data e !! RELATION = Some VNone →
               ip.2 graph n = any edge_is_causal post))
         causal_predicates.
Proof.
  intros Hpre.
  assert (∀ r : result bool,
            r = any edge_is_causal (pre ++ e :: post) →
            (causal (edge_data e) → r = Ok true)
            ∧ (edge_data e !! RELATION = None → r = Raise KeyError)
            ∧ (edge_data e !! RELATION = Some VNone →
               r = any edge_is_causal post)) as Hloop.
  { intros r ->. rewrite (any_first edge_is_causal pre post e Hpre).
    split; [|split].
    - intros Hc. by rewrite (edge_is_causal_true e Hc).
    - intros Hr. unfold edge_is_causal, dict_getitem. by rewrite Hr.
    - intros Hr. unfold edge_is_causal at 1, dict_getitem. by rewrite Hr. }
  unfold causal_predicates.
  constructor; [|constructor; [|constructor]];
    intros Hiter; apply Hloop; cbn [fst snd] in *.
  - unfold has_causal_in_edges. by rewrite Hiter.
  - unfold has_causal_out_edges. by rewrite Hiter.
Qed.

End Edges.

(** ** Exclusion filters *)

Section ExclusionMore.

Context {NodeRef : Type} `{Countable NodeRef}.

Variable node_to_tuple : dict → NodeRef.

Implicit Types (graph : BELGraph NodeRef) (n : NodeRef) (data : dict)
  (nodes : list (node_arg NodeRef)) (args : list (pyobj NodeRef)).

(** The arguments of a call of a decorated function of one parameter
    either lead to one data dictionary, on which the body is called, or
    to an error, whatever the body. *)
Lemma node_predicate_unary_resolve args :
  (∃ data, ∀ body : dict → result bool,
             node_predicate (unary body) args = body data)
  ∨ (∃ err, ∀ body : dict → result bool,
              node_predicate (unary body) args = Raise err).
Proof.
  destruct args as [|x rest]; [right; by exists ValueError|].
  destruct x as [graph|n|v]; simpl.
  - destruct rest as [|k extra]; [right; by exists IndexError|].
    destruct (node_getitem graph k) as [data|err]; simpl.
    + destruct extra; [left; by exists data | right; by exists TypeError].
    + right. by exists err.
  - right. by exists ValueError.
  - destruct v as [| | |data]; try (right; by exists ValueError).
    destruct rest; [left; by exists data | right; by exists TypeError].
Qed.

Lemma exclusion_set_app nodes1 nodes2 :
  exclusion_set node_to_tuple (nodes1 ++ nodes2)
  = exclusion_set node_to_tuple nodes1 ∪ exclusion_set node_to_tuple nodes2.
Proof. unfold exclusion_set. by rewrite fmap_app, list_to_set_app_L. Qed.

(** X12. The filter built from two sequences of nodes put end to end is
    the conjunction of the filters built from each, on every call: it
    raises what the first raises, and else returns true exactly when
    both return true. *)
Theorem node_exclusion_filter_app nodes1 nodes2 args :
  node_exclusion_filter_builder node_to_tuple (nodes1 ++ nodes2) args
  = (a <~ node_exclusion_filter_builder node_to_tuple nodes1 args ;;
     b <~ node_exclusion_filter_builder node_to_tuple nodes2 args ;;
     Ok (a && b)).
Proof.
  unfold node_exclusion_filter_builder.
  destruct (node_predicate_unary_resolve args) as [[data Hcall]|[err Hcall]];
    rewrite !Hcall; [|reflexivity].
  unfold node_exclusion_filter_body. simpl. f_equal.
  rewrite exclusion_set_app.
  apply eq_true_iff_eq.
  rewrite andb_true_iff, !bool_decide_eq_true. apply not_elem_of_union.
Qed.

(** X13. The filter only depends on the set of the node tuples it is
    built from: two sequences with the same node tuples, in any order
    and any number of times, give the same filter on every call. *)
Theorem node_exclusion_filter_order_irrelevant nodes nodes' args :
  (∀ n, n ∈ canonical node_to_tuple <$> nodes
        ↔ n ∈ canonical node_to_tuple <$> nodes') →
  node_exclusion_filter_builder node_to_tuple nodes args
  = node_exclusion_filter_builder node_to_tuple nodes' args.
Proof.
  intros Hsame. unfold node_exclusion_filter_builder.
  replace (exclusion_set node_to_tuple nodes')
    with (exclusion_set node_to_tuple nodes); [reflexivity|].
  apply set_eq. intros n. unfold exclusion_set.
  rewrite !elem_of_list_to_set. apply Hsame.
Qed.

(** X14. On a graph and a node, the filter looks up the data of the
    node and tests the node tuple of that data, not the node tuple it
    was called with: a filter built from the node tuple of the call is
    false of it when the data of the node has that node tuple, and true
    when it has another. *)
Theorem node_exclusion_filter_reads_stored_data nodes graph n data :
  node graph !! n = Some data →
  node_exclusion_filter_builder node_to_tuple nodes [PyGraph graph; PyNode n]
  = Ok (bool_decide (node_to_tuple data ∉ exclusion_set node_to_tuple nodes))
  ∧ (node_to_tuple data = n →
     node_exclusion_filter_builder node_to_tuple [ArgTuple n]
       [PyGraph graph; PyNode n] = Ok false)
  ∧ (node_to_tuple data ≠ n →
     node_exclusion_filter_builder node_to_tuple [ArgTuple n]
       [PyGraph graph; PyNode n] = Ok true).
Proof.
  intros Hn.
  assert (∀ nodes0,
            node_exclusion_filter_builder node_to_tuple nodes0
              [PyGraph graph; PyNode n]
            = Ok (bool_decide
                    (node_to_tuple data ∉ exclusion_set node_to_tuple nodes0)))
    as Hcall.
  { intros nodes0. unfold node_exclusion_filter_builder. simpl. by rewrite Hn. }
  split; [apply Hcall|]. split; intros Ht; rewrite Hcall; f_equal.
  - apply bool_decide_eq_false_2. intros Hout. apply Hout.
    apply elem_of_exclusion_set. exists (ArgTuple n).
    split; [apply list_elem_of_here | by rewrite Ht].
  - apply bool_decide_eq_true_2. intros Hin.
    apply elem_of_exclusion_set in Hin as (a & Ha & Hcan).
    apply list_elem_of_singleton in Ha. subst a. simpl in Hcan. by apply Ht.
Qed.

End ExclusionMore.

(** ** The configuration *)

Module ConfigFacts.
Import Config.

Lemma endswith_refl (s : string) : endswith s s = true.
Proof. destruct s; simpl; repeat case_bool_decide; try reflexivity; congruence. Qed.

(** [endswith] is true of the strings that end with the suffix. *)
Lemma endswith_spec (s suffix : string) :
  endswith s suffix = true ↔ ∃ p, s = p +:+ suffix.
Proof.
  split.
  - induction s as [|c s IH]; simpl.
    + case_bool_decide as Heq; [|discriminate]. intros _. by exists "".
    + case_bool_decide as Heq.
      * intros _. by exists "".
      * intros Hs. destruct (IH Hs) as [p ->]. by exists (String c p).
  - intros [p ->]. induction p as [|c p IH]; simpl.
    + apply endswith_refl.
    + case_bool_decide; [reflexivity | exact IH].
Qed.

Lemma load_config_lookup (i : inputs) (k : string) :
  load_config i !! k
  = match (if endswith (VERSION i) "-dev"
           then section_option i "pybel-dev" k else None) with
    | Some v => Some v
    | None => section_option i "pybel" k
    end.
Proof.
  unfold load_config, section_option, update.
  destruct (endswith (VERSION i) "-dev");
    destruct (sections i !! "pybel-dev") as [dev|];
    destruct (sections i !! "pybel") as [main|]; simpl;
    rewrite ?lookup_union, ?lookup_empty;
    repeat match goal with |- context [?m !! k] => destruct (m !! k) end;
    reflexivity.
Qed.

Lemma config_import_module (i : inputs) :
  config (import_module i) = load_config i.
Proof.
  unfold import_module.
  destruct (environ i !! PYBEL_CONNECTION); [reflexivity|].
  destruct (load_config i !! "connection"); reflexivity.
Qed.


(** X15. An option of [config] after the import is the option of the
    section [pybel-dev] when the version ends with [-dev] and that
    section has it, and the option of the section [pybel] otherwise;
    for a version that does not end with [-dev] the section [pybel-dev]
    is not read. *)
Theorem config_merges_sections (i : inputs) (k : string) :
  ((∃ p, VERSION i = p +:+ "-dev") →
   (∀ v, section_option i "pybel-dev" k = Some v →
      config (import_module i) !! k = Some v)
   ∧ (section_option i "pybel-dev" k = None →
      config (import_module i) !! k = section_option i "pybel" k))
  ∧ ((¬ ∃ p, VERSION i = p +:+ "-dev") →
     config (import_module i) !! k = section_option i "pybel" k
     ∧ ∀ section,
         config (import_module
                   {| VERSION := VERSION i; pystow_home := pystow_home i;
                      environ := environ i;
                      sections := <["pybel-dev" := section]> (sections i) |})
         = config (import_module i)).
Proof.
  rewrite !config_import_module, load_config_lookup. split.
  - intros Hdev. apply endswith_spec in Hdev. rewrite Hdev.
    split; [by intros v -> | by intros ->].
  - intros Hdev.
    destruct (endswith (VERSION i) "-dev") eqn:He.
    + exfalso. by apply Hdev, endswith_spec.
    + split; [reflexivity|]. intros section.
      rewrite config_import_module. unfold load_config. simpl. rewrite He.
      by rewrite lookup_insert_ne.
Qed.


End ConfigFacts.

(** ** The further properties on the graphs of the tests *)

Import MoreExamples.

(** [test_p1_data_variants]: [p1] is a protein. *)
Lemma function_predicates_exclusive_witness :
  is_protein (NodeRef := node_tuple) [PyValue (VDict p1)] = Ok true.
Proof.
  destruct (function_predicates_exclusive (NodeRef := node_tuple)
              p1 (VStr PROTEIN) [PyValue (VDict p1)])
    as (a & g & p & y & _ & _ & Hp & _ & _ & _ & Hprotein & _).
  - vm_compute. reflexivity.
  - left. reflexivity.
  - rewrite Hp. f_equal. by apply Hprotein.
Defined.

(** A dictionary without a function. *)
Lemma function_predicates_missing_key_witness :
  is_gene (NodeRef := node_tuple) [PyValue (VDict ∅)] = Raise KeyError.
Proof.
  pose proof (function_predicates_missing_key (NodeRef := node_tuple) ∅
                (lookup_empty FUNCTION)) as Hall.
  unfold function_predicates in Hall. rewrite !Forall_cons in Hall.
  exact (proj1 (proj1 (proj2 Hall))).
Defined.

(** A node that is not in the graph of [test_p1_active]. *)
Lemma node_predicate_call_errors_witness :
  is_protein [PyGraph p1_active; PyNode (simple_node_to_tuple p1)]
  = Raise NodeNotFound.
Proof.
  apply (proj1 (node_predicate_call_errors (unary is_protein_body) p1_active [])).
  vm_compute. reflexivity.
Defined.

Lemma kind_predicates_imply_has_variant_witness :
  has_variant (NodeRef := node_tuple) [PyValue (VDict no_variants)] = Ok true.
Proof.
  refine (proj1 (proj2 (kind_predicates_imply_has_variant (NodeRef := node_tuple))
                   no_variants _)).
  vm_compute. reflexivity.
Defined.

(** [test_p2_data_variants]: the protein modification of [p2] comes
    after its HGVS variant. *)
Lemma node_has_variant_first_decides_witness :
  _node_has_variant p2 PMOD = Ok true.
Proof.
  refine (proj1 (node_has_variant_first_decides p2 PMOD [variant HGVS] []
                   (variant PMOD) _ _) {[ KIND := VStr PMOD ]} _ _).
  - vm_compute. reflexivity.
  - constructor; [|constructor].
    exists {[ KIND := VStr HGVS ]}, (VStr HGVS).
    split; [reflexivity|]. split; [vm_compute; reflexivity|].
    intros Heq. vm_compute in Heq. discriminate.
  - reflexivity.
  - vm_compute. reflexivity.
Defined.

Lemma node_has_modifier_app_witness :
  ∃ b1 b2,
    _node_has_modifier (graph_of (node p1_active) [forth_edge])
      (simple_node_to_tuple hsd11b1) ACTIVITY = Ok b1
    ∧ _node_has_modifier (graph_of (node p1_active) [back_edge])
        (simple_node_to_tuple hsd11b1) ACTIVITY = Ok b2
    ∧ _node_has_modifier (graph_of (node p1_active) ([forth_edge] ++ [back_edge]))
        (simple_node_to_tuple hsd11b1) ACTIVITY = Ok (b1 || b2).
Proof.
  apply node_has_modifier_app.
  - vm_compute. reflexivity.
  - vm_compute. reflexivity.
  - has_key.
Defined.

Lemma node_has_modifier_order_irrelevant_witness :
  _node_has_modifier (graph_of (node p1_active) [forth_edge; back_edge])
    (simple_node_to_tuple cortisol) DEGRADATION
  = _node_has_modifier
      (graph_of (node p1_active) [back_edge; forth_edge; back_edge])
      (simple_node_to_tuple cortisol) DEGRADATION.
Proof.
  apply node_has_modifier_order_irrelevant.
  - vm_compute. reflexivity.
  - intros e. rewrite !elem_of_cons, !elem_of_nil. tauto.
Defined.

(** An evidence on the edges changes nothing. *)
Lemma edge_predicates_read_only_their_keys_witness :
  has_causal_in_edges
    (graph_of (node p1_active) (with_edge_data with_evidence [forth_edge]))
    (simple_node_to_tuple cortisol)
  = has_causal_in_edges (graph_of (node p1_active) [forth_edge])
      (simple_node_to_tuple cortisol).
Proof.
  refine (proj1 (proj2 (edge_predicates_read_only_their_keys (node p1_active)
                          [forth_edge] with_evidence
                          (simple_node_to_tuple cortisol)) _)).
  intros d. unfold with_evidence. apply lookup_insert_ne. discriminate.
Defined.

(** [test_subject_has_secretion]: the subject of the edge is
    translocated, and the edge is causal at both of its ends. *)
Lemma edge_seen_from_both_ends_witness :
  is_translocated subject_has_secretion (simple_node_to_tuple s100b) = Ok true
  ∧ has_causal_out_edges subject_has_secretion (simple_node_to_tuple s100b)
    = Ok true
  ∧ has_causal_in_edges subject_has_secretion (simple_node_to_tuple nitric_oxide)
    = Ok true.
Proof.
  destruct (edge_seen_from_both_ends subject_has_secretion
              (simple_node_to_tuple s100b) (simple_node_to_tuple nitric_oxide)
              subject_secretion_edge) as [Hscan Hcausal].
  - apply list_elem_of_here.
  - has_key.
  - has_key.
  - split.
    + apply (proj1 (Hscan ltac:(vm_compute; reflexivity) TRANSLOCATION)).
      has_record.
    + apply Hcausal; [vm_compute; reflexivity|].
      exists INCREASES. split; [vm_compute; reflexivity|].
      unfold CAUSAL_RELATIONS, INCREASES.
      apply elem_of_union_l, elem_of_union_l, elem_of_union_l, elem_of_singleton.
      reflexivity.
Defined.

(** An edge without a relation makes the predicate fail. *)
Lemma has_causal_edges_first_decides_witness :
  has_causal_in_edges (one_edge il4 cxcl1 no_relation_edge)
    (simple_node_to_tuple cxcl1) = Raise KeyError.
Proof.
  pose proof (has_causal_edges_first_decides (one_edge il4 cxcl1 no_relation_edge)
                (simple_node_to_tuple cxcl1) [] []
                (simple_node_to_tuple il4, simple_node_to_tuple cxcl1,
                 no_relation_edge)
                (List.Forall_nil _)) as Hall.
  unfold causal_predicates in Hall. apply Forall_inv in Hall.
  refine (proj1 (proj2 (Hall _)) _).
  - vm_compute. reflexivity.
  - vm_compute. reflexivity.
Defined.

(** [test_node_exclusion_data]: the order of the nodes, and giving one
    of them twice or by its node tuple, do not matter. *)
Lemma node_exclusion_filter_order_irrelevant_witness :
  node_exclusion_filter_builder simple_node_to_tuple
    [ArgData hsd11b1; ArgData cortisol] [PyValue (VDict cortisol)]
  = node_exclusion_filter_builder simple_node_to_tuple
      [ArgTuple (simple_node_to_tuple cortisol); ArgData hsd11b1; ArgData hsd11b1]
      [PyValue (VDict cortisol)].
Proof.
  apply node_exclusion_filter_order_irrelevant.
  intros n. cbn [fmap list_fmap canonical].
  rewrite !elem_of_cons, !elem_of_nil. tauto.
Defined.

(** [test_node_exclusion_tuples]: the graph holds the data of the node
    under its node tuple. *)
Lemma node_exclusion_filter_reads_stored_data_witness :
  node_exclusion_filter_builder simple_node_to_tuple
    [ArgTuple (simple_node_to_tuple hsd11b1)]
    [PyGraph p1_active; PyNode (simple_node_to_tuple hsd11b1)]
  = Ok false.
Proof.
  refine (proj1 (proj2 (node_exclusion_filter_reads_stored_data
                          simple_node_to_tuple
                          [ArgTuple (simple_node_to_tuple hsd11b1)] p1_active
                          (simple_node_to_tuple hsd11b1) hsd11b1 _)) _).
  - vm_compute. reflexivity.
  - reflexivity.
Defined.

(** A development version reads the connection of the section
    [pybel-dev]. *)
Lemma config_merges_sections_witness :
  Config.config (Config.import_module dev_inputs) !! "connection"
  = Some "sqlite:///dev.db".
Proof.
  refine (proj1 (proj1 (ConfigFacts.config_merges_sections dev_inputs
                          "connection") _) "sqlite:///dev.db" _).
  - exists "0.14.0". reflexivity.
  - vm_compute. reflexivity.
Defined.

